(** * RFPAnalyser: the multi-provider AI invocation layer

    A shallow embedding of [backend/ai/aiProviders.js]: the provider
    registry, the selector [getBestProvider], the six provider adapters and
    the orchestrator [analyzeWithAI] with its fallback by recursion.

    Conventions of the embedding.
    - A JavaScript string is a [string]; one character stands for one
      UTF-16 code unit, which is all [substring] and [length] look at.
    - An optional argument is a [JsArg]: [undefined], [null] or a string.
    - The module's mutable state (the registry, the four SDK clients) and
      the history of outbound network requests are threaded explicitly.
    - The outside world is a function from the history of requests and the
      current request to a reply; it is a Section variable, so every
      theorem holds for every behaviour of the backends.
    - [analyzeWithAI] calls itself in its [catch] block with no bound on
      the depth; the embedding takes a recursion budget and returns [None]
      when the budget is used up before the call settles.
    - The state also records which adapters were entered, in order. The
      source keeps no such list; it plays the part of a call-count spy
      and no function reads it. Console output is not modelled. *)

From Stdlib Require Import String Ascii List Bool Arith Lia.
Import ListNotations.
Local Open Scope string_scope.
Local Open Scope list_scope.

(** ** JavaScript values that reach this module *)

Inductive JsArg : Type :=
| JUndefined
| JNull
| JStr (s : string).

(** [!!v] for a value that is undefined, null or a string. *)
Definition truthy (v : JsArg) : bool :=
  match v with
  | JStr s => negb (s =? "")
  | _ => false
  end.

(** A default parameter [x = d] replaces [undefined] only, never [null]. *)
Definition default_param (d v : JsArg) : JsArg :=
  match v with
  | JUndefined => d
  | _ => v
  end.

(** [a || b] *)
Definition js_or (a b : JsArg) : JsArg := if truthy a then a else b.

(** [s.substring(start, end)]: both indices are clamped to the length and
    swapped when [start > end]. *)
Definition js_substring (start end_ : nat) (s : string) : string :=
  let a := Nat.min start (String.length s) in
  let b := Nat.min end_ (String.length s) in
  String.substring (Nat.min a b) (Nat.max a b - Nat.min a b) s.

(** ** The provider registry *)

Record Provider : Type := mkProvider {
  name : string;
  available : bool;
  models : list string;
  cost : string
}.

Definition set_available (b : bool) (p : Provider) : Provider :=
  mkProvider (name p) b (models p) (cost p).

(** The [providers] object: six fixed keys, declared in this order. *)
Record Registry : Type := mkRegistry {
  anthropic : Provider;
  xai : Provider;
  openai : Provider;
  groq : Provider;
  ollama : Provider;
  huggingface : Provider
}.

(** [Object.entries(providers)]: own keys in insertion order. *)
Definition entries (r : Registry) : list (string * Provider) :=
  [ ("anthropic", anthropic r); ("xai", xai r); ("openai", openai r);
    ("groq", groq r); ("ollama", ollama r); ("huggingface", huggingface r) ].

(** [process.env], restricted to the five variables the module reads. *)
Record Env : Type := mkEnv {
  ANTHROPIC_API_KEY : JsArg;
  XAI_API_KEY : JsArg;
  OPENAI_API_KEY : JsArg;
  GROQ_API_KEY : JsArg;
  HUGGINGFACE_API_KEY : JsArg
}.

Definition providers (env : Env) : Registry :=
  {| anthropic := {| name := "Anthropic Claude";
                     available := truthy (ANTHROPIC_API_KEY env);
                     models := ["claude-3-5-sonnet-20241022"; "claude-3-haiku-20240307";
                                "claude-3-opus-20240229"];
                     cost := "paid_premium" |};
     xai := {| name := "xAI Grok";
               available := truthy (XAI_API_KEY env);
               models := ["grok-beta"; "grok-vision-beta"];
               cost := "paid_alternative" |};
     openai := {| name := "OpenAI";
                  available := truthy (OPENAI_API_KEY env);
                  models := ["gpt-3.5-turbo"; "gpt-4"; "gpt-4-turbo"];
                  cost := "paid" |};
     groq := {| name := "Groq";
                available := truthy (GROQ_API_KEY env);
                models := ["llama3-8b-8192"; "llama3-70b-8192"; "mixtral-8x7b-32768";
                           "gemma-7b-it"];
                cost := "free_tier" |};
     ollama := {| name := "Ollama (Local)";
                  available := false;
                  models := ["llama3"; "mistral"; "codellama"; "phi3"];
                  cost := "free_local" |};
     huggingface := {| name := "Hugging Face";
                       available := truthy (HUGGINGFACE_API_KEY env);
                       models := ["microsoft/DialoGPT-large";
                                  "facebook/blenderbot-400M-distill"];
                       cost := "free_tier" |} |}.

(** ** SDK clients, requests and replies *)

Inductive Sdk : Type := AnthropicSdk | OpenAISdk | GroqSdk.

Record Client : Type := mkClient {
  sdk : Sdk;
  apiKey : JsArg;
  baseURL : option string
}.

(** One outbound call. Sampling temperature (0.3 everywhere) and the
    [stream: false] flag are constants of the source and are left out. *)
Inductive Request : Type :=
| MessagesCreate (c : Client) (model : JsArg) (max_tokens : nat)
                 (system user : string)
| ChatCompletionsCreate (c : Client) (model : string)
                        (system user : string) (max_tokens : nat)
| AxiosGet (url : string) (timeout : nat)
| OllamaGenerate (url model prompt : string) (num_predict : nat)
| HuggingFaceInference (url inputs : string) (max_length : nat)
                       (authorization : string).

Inductive Usage : Type :=
| UsageAbsent
| UsageTokens (tokens_in tokens_out : nat)
| UsageTotal (total_tokens : nat).

(** What the awaited promise does. [Rejected] stands for every way the
    adapter's [await] or the field access on its result throws: network
    failure, timeout, non-success status, malformed body. A fulfilled
    reply carries the one text field the adapter reads (which may be
    missing) and the usage record. *)
Inductive Reply : Type :=
| Rejected (message : string)
| Fulfilled (text : JsArg) (usage : Usage).

(** Errors are told apart by where they were created: [JsError] is
    [new Error(message)] in this module, [Rejection] comes from a client
    library. *)
Inductive Error : Type :=
| JsError (message : string)
| Rejection (message : string).

Record Result : Type := mkResult {
  content : JsArg;
  provider : string;
  model : JsArg;
  usage : Usage
}.

(** ** Module state *)

Record State : Type := mkState {
  env : Env;
  registry : Registry;
  anthropicClient : option Client;
  openaiClient : option Client;
  groqClient : option Client;
  xaiClient : option Client;
  (** observation only: adapters entered, oldest first *)
  entered : list string;
  (** outbound requests made so far, oldest first *)
  sent : list Request
}.

Definition with_registry (r : Registry) (st : State) : State :=
  mkState (env st) r (anthropicClient st) (openaiClient st) (groqClient st)
          (xaiClient st) (entered st) (sent st).

Definition enter (k : string) (st : State) : State :=
  mkState (env st) (registry st) (anthropicClient st) (openaiClient st)
          (groqClient st) (xaiClient st) (entered st ++ [k]) (sent st).

Definition record_request (q : Request) (st : State) : State :=
  mkState (env st) (registry st) (anthropicClient st) (openaiClient st)
          (groqClient st) (xaiClient st) (entered st) (sent st ++ [q]).

(** Module initialisation: the registry from the environment, and one
    client per configured hosted backend. *)
Definition boot (e : Env) : State :=
  let r := providers e in
  {| env := e;
     registry := r;
     anthropicClient :=
       if available (anthropic r)
       then Some (mkClient AnthropicSdk (ANTHROPIC_API_KEY e) None) else None;
     openaiClient :=
       if available (openai r)
       then Some (mkClient OpenAISdk (OPENAI_API_KEY e) None) else None;
     groqClient :=
       if available (groq r)
       then Some (mkClient GroqSdk (GROQ_API_KEY e) None) else None;
     xaiClient :=
       if available (xai r)
       then Some (mkClient OpenAISdk (XAI_API_KEY e) (Some "https://api.x.ai/v1"))
       else None;
     entered := [];
     sent := [] |}.

(** ** Selection *)

Definition getAvailableProviders (st : State) : list (string * Provider) :=
  filter (fun kp => available (snd kp)) (entries (registry st)).

Definition getBestProvider (st : State) : JsArg :=
  let p := registry st in
  if available (anthropic p) then JStr "anthropic"
  else if available (xai p) then JStr "xai"
  else if available (ollama p) then JStr "ollama"
  else if available (groq p) then JStr "groq"
  else if available (huggingface p) then JStr "huggingface"
  else if available (openai p) then JStr "openai"
  else JNull.

(** The first statement of [analyzeWithAI]:
    [preferredProvider || getBestProvider()]. *)
Definition select (preferredProvider : JsArg) (st : State) : JsArg :=
  js_or preferredProvider (getBestProvider st).

(** ** Computations: state passing with exceptions *)

Inductive Outcome (A : Type) : Type :=
| Returned (a : A)
| Thrown (e : Error).
Arguments Returned {A} a.
Arguments Thrown {A} e.

Definition M (A : Type) : Type := State -> Outcome A * State.

Definition ret {A} (a : A) : M A := fun st => (Returned a, st).

Definition throw {A} (e : Error) : M A := fun st => (Thrown e, st).

Definition bind {A B} (c : M A) (k : A -> M B) : M B :=
  fun st =>
    match c st with
    | (Returned a, st') => k a st'
    | (Thrown e, st') => (Thrown e, st')
    end.

Definition modify (f : State -> State) : M unit := fun st => (Returned tt, f st).

Definition gets {A} (f : State -> A) : M A := fun st => (Returned (f st), st).

Notation "x <- c ;; k" := (bind c (fun x => k))
  (at level 61, c at next level, right associativity).
Notation "c ;;; k" := (bind c (fun _ => k))
  (at level 61, right associativity).

(** [`${v}`] *)
Definition js_to_string (v : JsArg) : string :=
  match v with
  | JUndefined => "undefined"
  | JNull => "null"
  | JStr s => s
  end.

Definition SYSTEM_PROMPT : string :=
  "You are an expert RFP analyst specializing in broadcast and media industry projects. Always respond with valid JSON.".

Definition NO_PROVIDERS : Error :=
  JsError "No AI providers available. Please configure OpenAI, Groq, or install Ollama.".

(** What the local adapter's template literal puts between the prompt and
    the document: two line feeds and a label. *)
Definition DOCUMENT_SEPARATOR : string :=
  String "010" (String "010" "Document content: ").

Definition NO_PROVIDERS_CONFIGURED : Error :=
  JsError "No AI providers configured. Please configure OpenAI, Groq, or install Ollama.".

Section Backends.

(** The outside world: the reply to a request, given the requests made
    before it. *)
Variable net : list Request -> Request -> Reply.

(** [await] on an outbound call. *)
Definition await (q : Request) : M (JsArg * Usage) :=
  fun st =>
    let st' := record_request q st in
    match net (sent st) q with
    | Rejected msg => (Thrown (Rejection msg), st')
    | Fulfilled text u => (Returned (text, u), st')
    end.

Definition set_ollama_available (b : bool) (st : State) : State :=
  let r := registry st in
  with_registry
    (mkRegistry (anthropic r) (xai r) (openai r) (groq r)
                (set_available b (ollama r)) (huggingface r)) st.

(** The probe never throws: a rejection clears the flag. *)
Definition checkOllamaAvailability : M bool :=
  fun st =>
    match await (AxiosGet "http://localhost:11434/api/version" 2000) st with
    | (Returned (data, _), st') => (Returned true, set_ollama_available (truthy data) st')
    | (Thrown _, st') => (Returned false, set_ollama_available false st')
    end.

(** *** Adapters *)

Definition analyzeWithAnthropic (content prompt : string) (model : JsArg) : M Result :=
  let model := default_param (JStr "claude-3-5-sonnet-20241022") model in
  modify (enter "anthropic") ;;;
  client <- gets anthropicClient ;;
  match client with
  | None => throw (JsError "Anthropic not configured")
  | Some c =>
      completion <- await (MessagesCreate c model 4000 SYSTEM_PROMPT prompt) ;;
      ret {| content := fst completion;
             provider := "anthropic";
             model := model;
             usage := snd completion |}
  end.

Definition analyzeWithXAI (content prompt : string) : M Result :=
  modify (enter "xai") ;;;
  client <- gets xaiClient ;;
  match client with
  | None => throw (JsError "xAI not configured")
  | Some c =>
      completion <- await (ChatCompletionsCreate c "grok-beta" SYSTEM_PROMPT prompt 2000) ;;
      ret {| content := fst completion;
             provider := "xai";
             model := JStr "grok-beta";
             usage := snd completion |}
  end.

Definition analyzeWithOpenAI (content prompt : string) : M Result :=
  modify (enter "openai") ;;;
  client <- gets openaiClient ;;
  match client with
  | None => throw (JsError "OpenAI not configured")
  | Some c =>
      completion <- await (ChatCompletionsCreate c "gpt-3.5-turbo" SYSTEM_PROMPT prompt 2000) ;;
      ret {| content := fst completion;
             provider := "openai";
             model := JStr "gpt-3.5-turbo";
             usage := snd completion |}
  end.

Definition analyzeWithGroq (content prompt : string) : M Result :=
  modify (enter "groq") ;;;
  client <- gets groqClient ;;
  match client with
  | None => throw (JsError "Groq not configured")
  | Some c =>
      completion <- await (ChatCompletionsCreate c "llama3-8b-8192" SYSTEM_PROMPT prompt 2000) ;;
      ret {| content := fst completion;
             provider := "groq";
             model := JStr "llama3-8b-8192";
             usage := snd completion |}
  end.

Definition analyzeWithOllama (content prompt : string) : M Result :=
  modify (enter "ollama") ;;;
  _ <- checkOllamaAvailability ;;
  up <- gets (fun st => available (ollama (registry st))) ;;
  if negb up
  then throw (JsError "Ollama not available. Please install and run Ollama locally.")
  else
    response <- await (OllamaGenerate "http://localhost:11434/api/generate" "llama3"
                         (prompt ++ DOCUMENT_SEPARATOR ++ js_substring 0 3000 content)
                         2000) ;;
    ret {| content := fst response;
           provider := "ollama";
           model := JStr "llama3";
           usage := UsageTotal 0 |}.

Definition analyzeWithHuggingFace (content prompt : string) : M Result :=
  modify (enter "huggingface") ;;;
  key <- gets (fun st => HUGGINGFACE_API_KEY (env st)) ;;
  if negb (truthy key)
  then throw (JsError "Hugging Face API key not configured")
  else
    response <- await (HuggingFaceInference
                         "https://api-inference.huggingface.co/models/microsoft/DialoGPT-large"
                         (js_substring 0 1000 prompt)
                         500
                         ("Bearer " ++ js_to_string key)) ;;
    ret {| content := js_or (fst response)
                            (JStr "Analysis completed with limited functionality");
           provider := "huggingface";
           model := JStr "DialoGPT-large";
           usage := UsageTotal 0 |}.

(** *** The orchestrator *)

(** The [switch] inside the [try] block. *)
Definition dispatch (provider content prompt : string) (preferredModel : JsArg) : M Result :=
  if provider =? "anthropic" then analyzeWithAnthropic content prompt preferredModel
  else if provider =? "xai" then analyzeWithXAI content prompt
  else if provider =? "openai" then analyzeWithOpenAI content prompt
  else if provider =? "groq" then analyzeWithGroq content prompt
  else if provider =? "ollama" then analyzeWithOllama content prompt
  else if provider =? "huggingface" then analyzeWithHuggingFace content prompt
  else throw (JsError ("Unknown provider: " ++ provider)).

(** The candidates computed in the [catch] block. *)
Definition fallback_candidates (provider : string) (st : State) : list (string * Provider) :=
  filter (fun p => negb (fst p =? provider)) (getAvailableProviders st).

(** [None]: the recursion budget ran out before the call settled. *)
Fixpoint analyzeWithAI (fuel : nat) (content prompt : string)
    (preferredProvider preferredModel : JsArg) (st : State)
    : option (Outcome Result * State) :=
  match fuel with
  | 0 => None
  | S fuel' =>
      let preferredProvider := default_param JNull preferredProvider in
      let preferredModel := default_param JNull preferredModel in
      let provider := select preferredProvider st in
      if negb (truthy provider) then Some (Thrown NO_PROVIDERS, st)
      else
        let provider := js_to_string provider in
        match dispatch provider content prompt preferredModel st with
        | (Returned r, st') => Some (Returned r, st')
        | (Thrown error, st') =>
            match fallback_candidates provider st' with
            | next :: _ =>
                analyzeWithAI fuel' content prompt (JStr (fst next)) JUndefined st'
            | [] => Some (Thrown error, st')
            end
        end
  end.

(** [analyzeRFP] of [backend/ai/analyzer.js], from its entry up to and
    including its call of [analyzeWithAI]. The template that wraps the
    document into the analysis prompt is the argument [analysisPrompt].
    What [analyzeRFP] does with a returned response (JSON parsing,
    metadata) is outside this development; its [catch] block rethrows
    every error unchanged, so a thrown outcome is the caller's outcome. *)
Definition analyzeRFP_invoke (fuel : nat) (analysisPrompt : string -> string)
    (documentContent : string) (preferredProvider preferredModel : JsArg) (st : State)
    : option (Outcome Result * State) :=
  let preferredProvider := default_param JNull preferredProvider in
  let preferredModel := default_param JNull preferredModel in
  if Nat.eqb (List.length (getAvailableProviders st)) 0
  then Some (Thrown NO_PROVIDERS_CONFIGURED, st)
  else analyzeWithAI fuel documentContent (analysisPrompt documentContent)
                     preferredProvider preferredModel st.

Definition initializeProviders : M (list (string * Provider) * JsArg * nat) :=
  _ <- checkOllamaAvailability ;;
  avail <- gets getAvailableProviders ;;
  recommended <- gets getBestProvider ;;
  ret (avail, recommended, List.length avail).

End Backends.

(** ** Vocabulary of the specification *)

(** The priority order stated for selection, best first. *)
Definition PRIORITY : list string :=
  ["anthropic"; "xai"; "ollama"; "groq"; "huggingface"; "openai"].

(** The keys [dispatch] has a case for. *)
Definition KNOWN_KEYS : list string :=
  ["anthropic"; "xai"; "openai"; "groq"; "ollama"; "huggingface"].

Definition available_keys (st : State) : list string :=
  map fst (getAvailableProviders st).

Definition is_available (st : State) (k : string) : bool :=
  existsb (String.eqb k) (available_keys st).

(** Index of the first occurrence of a key in a list, the length of the
    list for a key that does not occur. *)
Fixpoint position (k : string) (l : list string) : nat :=
  match l with
  | [] => 0
  | x :: l' => if x =? k then 0 else S (position k l')
  end.

(** Rank in the priority order; smaller is better. *)
Definition rank (k : string) : nat := position k PRIORITY.

(** Selection as the specification words it: the first key of the
    priority order that is available, or nothing. *)
Definition highest_priority_available (st : State) : JsArg :=
  match find (is_available st) PRIORITY with
  | Some k => JStr k
  | None => JNull
  end.

(** The fallback in the specification's vocabulary, for the order the
    code turns out to use: the first key, in the order the registry
    declares them, that is available and is not the one that failed. *)
Definition registry_order_fallback (failed : string) (st : State) : option string :=
  find (fun k => is_available st k && negb (k =? failed)) KNOWN_KEYS.

(** The same with the priority order of primary selection. *)
Definition priority_order_fallback (failed : string) (st : State) : option string :=
  find (fun k => is_available st k && negb (k =? failed)) PRIORITY.

(** The text of a request that carries what the adapter was given: the
    user message, the prompt field or the inputs field. The probe
    carries none. *)
Definition user_text (q : Request) : option string :=
  match q with
  | MessagesCreate _ _ _ _ u => Some u
  | ChatCompletionsCreate _ _ _ u _ => Some u
  | AxiosGet _ _ => None
  | OllamaGenerate _ _ pr _ => Some pr
  | HuggingFaceInference _ i _ _ => Some i
  end.

(** The model a request names in its body. The huggingface request names
    its model in the URL only. *)
Definition request_model (q : Request) : option JsArg :=
  match q with
  | MessagesCreate _ m _ _ _ => Some m
  | ChatCompletionsCreate _ m _ _ _ => Some (JStr m)
  | AxiosGet _ _ => None
  | OllamaGenerate _ m _ _ => Some (JStr m)
  | HuggingFaceInference _ _ _ _ => None
  end.

(** [providers[k]] for a key of the registry. *)
Definition descriptor (k : string) (r : Registry) : option Provider :=
  option_map snd (find (fun kp => fst kp =? k) (entries r)).

(** The first entry of a provider's model list, as a model argument. *)
Definition first_model (k : string) (r : Registry) : option JsArg :=
  match descriptor k r with
  | Some d => option_map JStr (hd_error (models d))
  | None => None
  end.

(** The requests made between two states of one run. *)
Definition new_requests (st st' : State) : list Request :=
  skipn (List.length (sent st)) (sent st').

(** Observations on a settled run of the orchestrator. *)
Definition outcome_of (run : option (Outcome Result * State)) : option (Outcome Result) :=
  option_map fst run.

Definition entered_by (run : option (Outcome Result * State)) : option (list string) :=
  option_map (fun x => entered (snd x)) run.

Definition sent_by (run : option (Outcome Result * State)) : option (list Request) :=
  option_map (fun x => sent (snd x)) run.

Definition model_of (o : Outcome Result) : option JsArg :=
  match o with
  | Returned r => Some (model r)
  | Thrown _ => None
  end.

Definition provider_of (o : Outcome Result) : option string :=
  match o with
  | Returned r => Some (provider r)
  | Thrown _ => None
  end.

(** The part of the state no adapter touches. *)
Definition same_configuration (st st' : State) : Prop :=
  env st' = env st
  /\ anthropicClient st' = anthropicClient st
  /\ openaiClient st' = openaiClient st
  /\ groqClient st' = groqClient st
  /\ xaiClient st' = xaiClient st
  /\ available (anthropic (registry st')) = available (anthropic (registry st))
  /\ available (xai (registry st')) = available (xai (registry st))
  /\ available (openai (registry st')) = available (openai (registry st))
  /\ available (groq (registry st')) = available (groq (registry st))
  /\ available (huggingface (registry st')) = available (huggingface (registry st)).

(** The error of the switch's default case. *)
Definition unknown_provider_error (e : Error) : Prop :=
  exists k, e = JsError ("Unknown provider: " ++ k).

(** ** Concrete environments and backends *)

Module Scenario.

Definition no_keys : Env :=
  mkEnv JUndefined JUndefined JUndefined JUndefined JUndefined.

Definition anthropic_only : Env :=
  mkEnv (JStr "sk-ant-1") JUndefined JUndefined JUndefined JUndefined.

Definition openai_and_groq : Env :=
  mkEnv JUndefined JUndefined (JStr "sk-1") (JStr "gsk-1") JUndefined.

Definition anthropic_openai_groq : Env :=
  mkEnv (JStr "sk-ant-1") JUndefined (JStr "sk-1") (JStr "gsk-1") JUndefined.

Definition openai_only : Env :=
  mkEnv JUndefined JUndefined (JStr "sk-1") JUndefined JUndefined.

Definition huggingface_only : Env :=
  mkEnv JUndefined JUndefined JUndefined JUndefined (JStr "hf-1").

(** Every backend answers. *)
Definition all_up : list Request -> Request -> Reply :=
  fun _ _ => Fulfilled (JStr "{}") (UsageTokens 10 20).

(** No backend answers. *)
Definition all_down : list Request -> Request -> Reply :=
  fun _ _ => Rejected "connect ECONNREFUSED".

(** The first [n] requests are refused, later ones are answered. *)
Definition up_after (n : nat) : list Request -> Request -> Reply :=
  fun history _ =>
    if Nat.ltb (List.length history) n
    then Rejected "503 Service Unavailable"
    else Fulfilled (JStr "{}") (UsageTokens 10 20).

(** The local service answers the first probe and is gone afterwards;
    the hosted backends refuse for lack of credits. *)
Definition local_service_stops : list Request -> Request -> Reply :=
  fun history q =>
    match q with
    | AxiosGet _ _ =>
        match history with
        | [] => Fulfilled (JStr "0.1.32") UsageAbsent
        | _ => Rejected "connect ECONNREFUSED"
        end
    | _ => Rejected "429 insufficient_quota"
    end.

Fixpoint replicate (n : nat) (ch : ascii) : string :=
  match n with
  | 0 => EmptyString
  | S n' => String ch (replicate n' ch)
  end.

(** The state after [initializeProviders] has run at start-up. *)
Definition started (net : list Request -> Request -> Reply) (e : Env) : State :=
  snd (initializeProviders net (boot e)).

End Scenario.

Import Scenario.

(** ** Vocabulary for the adapters and the call chain *)

(** The providers gated by a credential, in registry order. *)
Definition HOSTED_KEYS : list string :=
  ["anthropic"; "xai"; "openai"; "groq"; "huggingface"].

(** The providers called through an SDK client. *)
Definition SDK_KEYS : list string := ["anthropic"; "xai"; "openai"; "groq"].

(** What each hosted adapter tests before it makes its request: its
    client for the four SDK providers, the environment variable for
    huggingface. *)
Definition has_credentials (k : string) (st : State) : bool :=
  if k =? "anthropic" then match anthropicClient st with Some _ => true | None => false end
  else if k =? "xai" then match xaiClient st with Some _ => true | None => false end
  else if k =? "openai" then match openaiClient st with Some _ => true | None => false end
  else if k =? "groq" then match groqClient st with Some _ => true | None => false end
  else if k =? "huggingface" then truthy (HUGGINGFACE_API_KEY (env st))
  else false.


(** The probe of the local service. *)
Definition PROBE : Request := AxiosGet "http://localhost:11434/api/version" 2000.

(** Whether the local service answers a probe made after [history] with
    a truthy body. *)
Definition local_service_up (net : list Request -> Request -> Reply)
    (history : list Request) : bool :=
  match net history PROBE with
  | Fulfilled data _ => truthy data
  | Rejected _ => false
  end.

(** No two neighbours of a list are equal. *)
Fixpoint adjacent_distinct (l : list string) : Prop :=
  match l with
  | [] => True
  | x :: l' =>
      match l' with
      | [] => True
      | y :: _ => x <> y
      end /\ adjacent_distinct l'
  end.

(** ** The analyzer: [backend/ai/analyzer.js] *)

(** A value [JSON.parse] can return. A number is kept as the text of its
    literal; nothing here computes with it. *)
#[warnings="-register-all"]
Inductive Json : Type :=
| JsonNull
| JsonBool (b : bool)
| JsonNumber (literal : string)
| JsonString (s : string)
| JsonArray (items : list Json)
| JsonObject (fields : list (string * Json)).

(** The double quote character, for the templates that contain it. *)
Definition DQUOTE : string := String (Ascii.ascii_of_nat 34) EmptyString.

(** The template literal of [extractKeywords], around the first 3000
    characters of the document. *)
Definition KEYWORD_PROMPT_HEAD : string :=
  ("
Extract the most important keywords and phrases from this broadcast/media industry RFP document.
Focus on:
- Technical terms and equipment names
- Industry standards and protocols
- Project requirements and deliverables
- Compliance and regulatory terms
- Workflow and operational terms

Return only a JSON array of strings, ordered by relevance:
[" ++ DQUOTE ++ "keyword1" ++ DQUOTE ++ ", " ++ DQUOTE ++ "keyword2" ++ DQUOTE ++ ", " ++ DQUOTE ++ "keyword3" ++ DQUOTE ++ ", ...]

Document content:
")%string.

Definition KEYWORD_PROMPT_TAIL : string :=
  " // Limit for keyword extraction
".

Definition keywordPrompt (documentContent : string) : string :=
  (KEYWORD_PROMPT_HEAD ++ js_substring 0 3000 documentContent ++ KEYWORD_PROMPT_TAIL)%string.

(** The length of the match of [/PAT\n?/] at the head of [s], for a
    literal [PAT] that is a prefix of [s]: the literal, and the line feed
    after it when there is one. *)
Definition marker_span (pat s : string) : nat :=
  String.length pat
  + match String.get (String.length pat) s with
    | Some ch => if Ascii.eqb ch "010" then 1 else 0
    | None => 0
    end.

(** [s.replace(/PAT\n?/g, '')] for a non-empty literal [PAT]: matches are
    found left to right and do not overlap. [skip] counts the characters
    of the current match still to be dropped. *)
Fixpoint remove_marker (pat : string) (skip : nat) (s : string) : string :=
  match s with
  | EmptyString => EmptyString
  | String ch rest =>
      match skip with
      | S skip' => remove_marker pat skip' rest
      | 0 =>
          if String.prefix pat s
          then remove_marker pat (marker_span pat s - 1) rest
          else String ch (remove_marker pat 0 rest)
      end
  end.

Definition FENCE : string := "```".

Definition JSON_FENCE : string := "```json".

(** [text.replace(/```json\n?/g, '').replace(/```\n?/g, '')] *)
Definition strip_code_fences (text : string) : string :=
  remove_marker FENCE 0 (remove_marker JSON_FENCE 0 text).

(** Whether a text contains three backticks in a row. *)
Fixpoint has_fence (s : string) : bool :=
  match s with
  | EmptyString => false
  | String _ rest => String.prefix FENCE s || has_fence rest
  end.

(** The object [analyzeRFP] builds when the response does not parse,
    without its [rawAnalysis] property. *)
Definition UNSTRUCTURED_ANALYSIS : list (string * Json) :=
  [ ("title", JsonString "Analysis completed - see details below");
    ("projectType", JsonString "Broadcast/Media Project");
    ("budget", JsonString "Not specified");
    ("timeline", JsonString "See analysis details");
    ("keyDeadlines", JsonArray []);
    ("technicalRequirements", JsonArray [JsonString "See analysis details"]);
    ("complianceStandards", JsonArray []);
    ("integrationRequirements", JsonArray []);
    ("performanceRequirements", JsonArray []);
    ("riskFactors",
     JsonArray
       [JsonObject
          [ ("risk", JsonString "AI analysis parsing error - manual review needed");
            ("severity", JsonString "Medium");
            ("impact", JsonString "Analysis results may be incomplete") ]]);
    ("opportunityAreas", JsonArray [JsonString "Manual review recommended"]);
    ("evaluationCriteria", JsonArray []);
    ("keyWords", JsonArray []);
    ("industrySpecific",
     JsonObject
       [ ("broadcastStandards", JsonArray []);
         ("equipmentTypes", JsonArray []);
         ("workflowRequirements", JsonArray []) ]) ].

(** The value bound to [analysis] before the metadata is attached. *)
Inductive AnalysisBody : Type :=
| Parsed (value : Json)
| Unstructured (rawAnalysis : JsArg).

(** The [analysisMetadata] object. *)
Record AnalysisMetadata : Type := mkAnalysisMetadata {
  analyzedAt : string;
  metadata_provider : string;
  metadata_model : JsArg;
  contentLength : nat;
  metadata_usage : Usage;
  processingTime : nat
}.

(** How [analyzeRFP] ends. The module is an ES module, hence strict:
    setting [analysisMetadata] on a parsed value that is not an object or
    an array (null, a boolean, a number, a string) throws a [TypeError],
    which the outer [catch] rethrows. *)
Inductive AnalysisOutcome : Type :=
| AnalysisReturned (body : AnalysisBody) (metadata : AnalysisMetadata)
| AnalysisThrown (e : Error)
| AnalysisTypeError (parsed : Json).

Definition accepts_properties (j : Json) : bool :=
  match j with
  | JsonArray _ | JsonObject _ => true
  | _ => false
  end.

Section Analyzer.

Variable net : list Request -> Request -> Reply.

(** [JSON.parse] on a string; [None] is a [SyntaxError]. *)
Variable JSON_parse : string -> option Json.

(** The [try] block around [JSON.parse] in [analyzeRFP]. Calling
    [replace] on a text that is undefined or null throws inside the
    block, and ends in the same [catch]. *)
Definition structure_response (responseText : JsArg) : AnalysisBody :=
  match responseText with
  | JStr text =>
      match JSON_parse (strip_code_fences text) with
      | Some value => Parsed value
      | None => Unstructured responseText
      end
  | _ => Unstructured responseText
  end.

(** [analyzeRFP]. [now_iso] and [now_ms] are the two clock readings
    taken when the metadata is built; [analysisPrompt] is the template
    literal around the document. *)
Definition analyzeRFP (fuel : nat) (analysisPrompt : string -> string)
    (now_iso : string) (now_ms : nat)
    (documentContent : string) (preferredProvider preferredModel : JsArg) (st : State)
    : option (AnalysisOutcome * State) :=
  match analyzeRFP_invoke net fuel analysisPrompt documentContent
          preferredProvider preferredModel st with
  | None => None
  | Some (Thrown error, st') => Some (AnalysisThrown error, st')
  | Some (Returned aiResponse, st') =>
      let responseText := content aiResponse in
      let analysis := structure_response responseText in
      let metadata :=
        {| analyzedAt := now_iso;
           metadata_provider := provider aiResponse;
           metadata_model := model aiResponse;
           contentLength := String.length documentContent;
           metadata_usage := usage aiResponse;
           processingTime := now_ms |} in
      match analysis with
      | Parsed value =>
          if accepts_properties value
          then Some (AnalysisReturned analysis metadata, st')
          else Some (AnalysisTypeError value, st')
      | Unstructured _ => Some (AnalysisReturned analysis metadata, st')
      end
  end.

(** [extractKeywords]. [JSON.parse] turns its argument into a string
    first, so a missing text is parsed as the text "undefined" or
    "null". Every error ends in a [catch] that returns the empty list. *)
Definition extractKeywords (fuel : nat) (documentContent : string) (st : State)
    : option (Outcome (list Json) * State) :=
  if Nat.eqb (List.length (getAvailableProviders st)) 0
  then Some (Returned [], st)
  else
    match analyzeWithAI net fuel documentContent (keywordPrompt documentContent)
            JUndefined JUndefined st with
    | None => None
    | Some (Thrown _, st') => Some (Returned [], st')
    | Some (Returned aiResponse, st') =>
        match JSON_parse (js_to_string (content aiResponse)) with
        | Some (JsonArray keywords) => Some (Returned keywords, st')
        | Some _ => Some (Returned [], st')
        | None => Some (Returned [], st')
        end
    end.

End Analyzer.

(** ** The server: [processFile] and the assistant route *)

From Stdlib Require Import DecimalString.

(** [error.message] *)
Definition message_of (e : Error) : string :=
  match e with
  | JsError message => message
  | Rejection message => message
  end.

(** A number of bytes in a template literal. *)
Definition decimal (n : nat) : string :=
  DecimalString.NilEmpty.string_of_uint (Nat.to_uint n).

(** The extensions the upload filter lets through. *)
Definition ALLOWED_TYPES : list string :=
  [".pdf"; ".doc"; ".docx"; ".odt"; ".ods"; ".xlsx"; ".xls"; ".txt"].

(** The parser modules [processFile] chooses from; [TextReader] is the
    plain [fs.readFile] used for text files. *)
Inductive Parser : Type :=
| OdfParser | WordParser | ExcelParser | PdfParser | TextReader.

(** The [switch] of [processFile]; [None] is its [default] case. *)
Definition parser_for (extension : string) : option Parser :=
  if extension =? ".odt" then Some OdfParser
  else if extension =? ".ods" then Some OdfParser
  else if extension =? ".doc" then Some WordParser
  else if extension =? ".docx" then Some WordParser
  else if extension =? ".xlsx" then Some ExcelParser
  else if extension =? ".xls" then Some ExcelParser
  else if extension =? ".pdf" then Some PdfParser
  else if extension =? ".txt" then Some TextReader
  else None.

(** The file object multer (or the Drive route) hands to [processFile]. *)
Record UploadedFile : Type := mkUploadedFile {
  originalname : string;
  file_path : string;
  file_size : nat;
  mimetype : string
}.

(** The object [processFile] passes to [saveProcessedContent]. *)
Record ProcessedData : Type := mkProcessedData {
  originalFile : string;
  data_content : string;
  data_size : nat;
  data_mimeType : string;
  processedAt : string;
  data_extension : string
}.

(** What [processFile] returns; its [success] field is always [true]. *)
Record ProcessResult : Type := mkProcessResult {
  contentId : string;
  result_originalFile : string;
  result_size : nat;
  preview : string
}.

(** The effects of [processFile] on storage, in the order they happen. *)
Inductive StorageEffect : Type :=
| SavedProcessed (id : string) (data : ProcessedData)
| RemovedFile (path : string).

(** The text stored in place of the content when parsing failed. *)
Definition parse_failure_text (file : UploadedFile) (message : string) : string :=
  ("Error parsing " ++ originalname file ++ ": " ++ message
   ++ String "010" "File size: " ++ decimal (file_size file) ++ " bytes"
   ++ String "010" "Please try with a different document.")%string.

(** The template literal of the assistant route. *)
Definition assistantPrompt (documentContent question : string) : string :=
  ("You are an expert RFP (Request for Proposal) assistant specializing in the broadcast and media industry. 

DOCUMENT CONTEXT:
" ++ documentContent ++ "

USER QUESTION:
" ++ question ++ "

Please provide a comprehensive, professional response that:
1. Addresses the specific question based on the RFP document content
2. Provides actionable insights and recommendations
3. Highlights any specific requirements, deadlines, or criteria from the RFP
4. Suggests next steps or considerations for proposal preparation
5. Uses clear, professional language suitable for business contexts

Focus on being thorough yet concise, and always reference specific information from the RFP document when available.")%string.

(** What the assistant route sends back: [res.status(n).json({error})]
    or the answer with its metadata, status 200. *)
Inductive AssistantReply : Type :=
| ReplyError (status : nat) (error : string)
| ReplyAnswer (answer : JsArg) (served_by : string) (served_model : JsArg)
              (timestamp : string).

Section Server.

Variable net : list Request -> Request -> Reply.

(** [path.extname] and [String.prototype.toLowerCase]. *)
Variable extname : string -> string.
Variable toLowerCase : string -> string.

(** A parser module run on a path: the extracted text, or the error it
    throws. *)
Variable run_parser : Parser -> string -> Outcome string.

(** [fileManager.saveProcessedContent] and [fs.remove], as far as
    [processFile] sees them: they succeed or throw. *)
Variable saveProcessedContent : string -> ProcessedData -> option Error.
Variable remove : string -> option Error.

(** [fileManager.getProcessedContent], as far as the routes see it: the
    content of the stored document, nothing for an unknown id, or the
    error it throws. *)
Variable getProcessedContent : string -> Outcome (option string).

(** The upload filter: [cb(null, true)] or [cb(new Error(...))]. *)
Definition fileFilter (file : UploadedFile) : Outcome bool :=
  let ext := toLowerCase (extname (originalname file)) in
  if existsb (String.eqb ext) ALLOWED_TYPES
  then Returned true
  else Thrown (JsError
    "Invalid file type. Only PDF, Word, ODF, Excel, and TXT files are allowed.").

(** The [try] block of [processFile]: the text to store. *)
Definition parse_upload (file : UploadedFile) : string :=
  let extension := toLowerCase (extname (originalname file)) in
  match parser_for extension with
  | Some parser =>
      match run_parser parser (file_path file) with
      | Returned parsedContent => parsedContent
      | Thrown parseError => parse_failure_text file (message_of parseError)
      end
  | None =>
      parse_failure_text file ("Unsupported file type: " ++ extension)
  end.

(** [processFile]. [uuid] is the identifier [uuidv4()] draws and
    [now_iso] the clock reading. The outcome comes with the storage
    effects that took place. *)
Definition processFile (file : UploadedFile) (uuid now_iso : string)
    : Outcome ProcessResult * list StorageEffect :=
  let extension := toLowerCase (extname (originalname file)) in
  let parsedContent := parse_upload file in
  let data :=
    {| originalFile := originalname file;
       data_content := parsedContent;
       data_size := file_size file;
       data_mimeType := mimetype file;
       processedAt := now_iso;
       data_extension := extension |} in
  match saveProcessedContent uuid data with
  | Some error => (Thrown error, [])
  | None =>
      match remove (file_path file) with
      | Some error => (Thrown error, [SavedProcessed uuid data])
      | None =>
          (Returned {| contentId := uuid;
                       result_originalFile := originalname file;
                       result_size := file_size file;
                       preview := (js_substring 0 500 parsedContent ++ "...")%string |},
           [SavedProcessed uuid data; RemovedFile (file_path file)])
      end
  end.

(** The handler of [POST /api/ai-assistant]. The four arguments are the
    fields [contentId], [question], [provider] and [model] of the
    request body. *)
Definition ai_assistant (fuel : nat) (now_iso : string)
    (content_id question requested_provider requested_model : JsArg) (st : State)
    : option (AssistantReply * State) :=
  if negb (truthy content_id) || negb (truthy question)
  then Some (ReplyError 400 "Content ID and question are required", st)
  else
    match getProcessedContent (js_to_string content_id) with
    | Thrown error => Some (ReplyError 500 (message_of error), st)
    | Returned None => Some (ReplyError 404 "Document not found", st)
    | Returned (Some documentContent) =>
        match analyzeWithAI net fuel documentContent
                (assistantPrompt documentContent (js_to_string question))
                requested_provider requested_model st with
        | None => None
        | Some (Thrown error, st') => Some (ReplyError 500 (message_of error), st')
        | Some (Returned aiResponse, st') =>
            Some (ReplyAnswer (content aiResponse) (provider aiResponse)
                              (model aiResponse) now_iso, st')
        end
    end.

End Server.

(** ** The analysis without AI: [createMockAnalysis] *)

(** [s.split('\n')]: never empty; the empty string gives one empty
    line. *)
Fixpoint split_lines (s : string) : list string :=
  match s with
  | EmptyString => [EmptyString]
  | String ch rest =>
      match split_lines rest with
      | line :: lines =>
          if Ascii.eqb ch "010" then EmptyString :: line :: lines
          else String ch line :: lines
      | [] => [String ch EmptyString]
      end
  end.

(** [hay.includes(needle)] *)
Fixpoint includes (needle hay : string) : bool :=
  String.prefix needle hay
  || match hay with
     | EmptyString => false
     | String _ rest => includes needle rest
     end.

(** [a || b] where [a] is a string or undefined and [b] a string. *)
Definition string_or (a : option string) (b : string) : string :=
  match a with
  | Some s => if s =? "" then b else s
  | None => b
  end.

(** The fields of the mock analysis that are literals in the source. *)
Definition MOCK_LITERAL_FIELDS : list (string * Json) :=
  [ ("projectType", JsonString "Document Analysis (No AI Available)");
    ("complianceStandards", JsonArray []);
    ("integrationRequirements", JsonArray []);
    ("performanceRequirements", JsonArray []);
    ("riskFactors",
     JsonArray
       [JsonObject
          [ ("risk", JsonString "AI analysis unavailable - manual review required");
            ("severity", JsonString "Medium");
            ("impact",
             JsonString "Document content extracted but detailed analysis requires AI provider setup") ]]);
    ("opportunityAreas",
     JsonArray [ JsonString "Document successfully uploaded and parsed";
                 JsonString "Text extraction working properly";
                 JsonString "Ready for AI analysis once provider is configured" ]);
    ("evaluationCriteria", JsonArray []);
    ("keyWords", JsonArray []);
    ("industrySpecific",
     JsonObject
       [ ("broadcastStandards", JsonArray []);
         ("equipmentTypes", JsonArray []);
         ("workflowRequirements", JsonArray []) ]) ].

(** The fields of the mock analysis that depend on the document or the
    clock; the object returned has these and [MOCK_LITERAL_FIELDS]. Its
    metadata also names the provider "fallback", the model
    "document-parser" and a fixed reason. *)
Record MockAnalysis : Type := mkMockAnalysis {
  mock_title : string;
  mock_budget : string;
  mock_timeline : string;
  mock_keyDeadlines : list string;
  mock_technicalRequirements : list string;
  mock_analyzedAt : string;
  mock_contentLength : nat;
  mock_wordCount : nat;
  mock_documentPreview : string
}.

Section MockAnalysisOf.

(** [String.prototype.trim] and [toLowerCase]. *)
Variable trim : string -> string.
Variable toLowerCase : string -> string.

(** [/\d+\s+(days?|weeks?|months?)/i.test(line)] *)
Variable mentions_duration : string -> bool.

(** [documentContent.split(/\s+/).length] *)
Variable count_words : string -> nat.

Definition content_lines (documentContent : string) : list string :=
  filter (fun line => Nat.ltb 0 (String.length (trim line))) (split_lines documentContent).

Definition title_candidate (line : string) : bool :=
  Nat.ltb (String.length line) 100
  && (includes "rfp" (toLowerCase line)
      || includes "request" (toLowerCase line)
      || includes "proposal" (toLowerCase line)).

Definition mentions_budget (line : string) : bool :=
  includes "budget" (toLowerCase line)
  || includes "cost" (toLowerCase line)
  || includes "$" (toLowerCase line)
  || includes "price" (toLowerCase line).

Definition mentions_timeline (line : string) : bool :=
  includes "deadline" (toLowerCase line)
  || includes "timeline" (toLowerCase line)
  || includes "schedule" (toLowerCase line)
  || includes "delivery" (toLowerCase line)
  || mentions_duration line.

(** [createMockAnalysis]; [now_iso] is the clock reading. *)
Definition createMockAnalysis (now_iso : string) (documentContent : string)
    : MockAnalysis :=
  let lines := content_lines documentContent in
  let wordCount := count_words documentContent in
  let potentialTitle :=
    string_or (find title_candidate lines)
              (string_or (hd_error lines) "RFP Analysis") in
  let budgetLines := filter mentions_budget lines in
  let timelineLines := filter mentions_timeline lines in
  {| mock_title := js_substring 0 80 potentialTitle;
     mock_budget :=
       if Nat.ltb 0 (List.length budgetLines)
       then "Budget information found in document"
       else "Budget not clearly specified";
     mock_timeline :=
       if Nat.ltb 0 (List.length timelineLines)
       then "Timeline information found in document"
       else "Timeline not clearly specified";
     mock_keyDeadlines :=
       map (fun line => js_substring 0 100 (trim line)) (firstn 3 timelineLines);
     mock_technicalRequirements :=
       [ "Document parsing completed successfully";
         ("Document contains " ++ decimal wordCount ++ " words")%string;
         ("Document has " ++ decimal (List.length lines) ++ " lines of content")%string;
         "Full AI analysis requires working API provider" ];
     mock_analyzedAt := now_iso;
     mock_contentLength := String.length documentContent;
     mock_wordCount := wordCount;
     mock_documentPreview :=
       (js_substring 0 500 documentContent
        ++ (if Nat.ltb 500 (String.length documentContent) then "..." else ""))%string |}.

End MockAnalysisOf.

(** ** Storage: [storage/fileManager.js] *)

From Stdlib Require Import ZArith.

Module FileManager.

(** What a path holds: a file whose text is the JSON of a value, or a
    file [fs.readJSON] cannot read, with the message of the error it
    throws. Writing a value and reading it back gives the value. *)
Inductive FileData : Type :=
| JsonFile (value : Json)
| Unreadable (message : string).

(** The part of the file system the module uses, by absolute path. Its
    operations are taken to succeed. *)
Definition Fs : Type := string -> option FileData.

Definition pathExists (path : string) (fs : Fs) : bool :=
  match fs path with
  | Some _ => true
  | None => false
  end.

Definition writeJSON (path : string) (value : Json) (fs : Fs) : Fs :=
  fun p => if p =? path then Some (JsonFile value) else fs p.

Definition remove (path : string) (fs : Fs) : Fs :=
  fun p => if p =? path then None else fs p.

(** How a storage function ends. *)
Inductive StorageError : Type :=
| ReadFailure (message : string)
| PropertyOfNull (property : string).

Inductive Stored (A : Type) : Type :=
| Loaded (a : A)
| Failed (e : StorageError).
Arguments Loaded {A} a.
Arguments Failed {A} e.

(** Own properties of an object: the first binding of a key counts. *)
Fixpoint object_get (k : string) (fields : list (string * Json)) : option Json :=
  match fields with
  | [] => None
  | (k', v) :: rest => if k' =? k then Some v else object_get k rest
  end.

(** Setting a property: in place when the key is there, at the end
    otherwise. *)
Fixpoint object_set (k : string) (v : Json) (fields : list (string * Json))
    : list (string * Json) :=
  match fields with
  | [] => [(k, v)]
  | (k', v') :: rest =>
      if k' =? k then (k', v) :: rest else (k', v') :: object_set k v rest
  end.

(** [{ ...target, ...data }] *)
Definition spread (data target : list (string * Json)) : list (string * Json) :=
  fold_left (fun acc kv => object_set (fst kv) (snd kv) acc) data target.

(** [record.k] for a value read from a file: [None] is undefined.
    Reading a property of null throws. *)
Definition property (k : string) (record : Json) : Stored (option Json) :=
  match record with
  | JsonObject fields => Loaded (object_get k fields)
  | JsonNull => Failed (PropertyOfNull k)
  | _ => Loaded None
  end.

Section Store.

(** [path.join] and the data directories, which depend on where the
    module is installed. *)
Variable path_join : string -> string -> string.
Variable PROCESSED_DIR : string.
Variable ANALYSIS_DIR : string.
Variable CACHE_DIR : string.

(** [new Date(v).getTime()] for a property value that may be missing;
    [None] is an invalid date. *)
Variable date_of : option Json -> option Z.

(** [new Date(ms).toISOString()]; [None] is the [RangeError] of a time
    out of range. *)
Variable toISOString : Z -> option string.

Definition processed_path (contentId : string) : string :=
  path_join PROCESSED_DIR (contentId ++ ".json").

Definition analysis_path (contentId : string) : string :=
  path_join ANALYSIS_DIR (contentId ++ ".json").

Definition cache_path (key : string) : string :=
  path_join CACHE_DIR (key ++ ".json").

(** [{ id: contentId, ...data, savedAt }] *)
Definition processed_record (contentId : string) (data : list (string * Json))
    (now_iso : string) : list (string * Json) :=
  object_set "savedAt" (JsonString now_iso)
    (spread data [("id", JsonString contentId)]).

Definition saveProcessedContent (contentId : string) (data : list (string * Json))
    (now_iso : string) (fs : Fs) : string * Fs :=
  (contentId,
   writeJSON (processed_path contentId)
     (JsonObject (processed_record contentId data now_iso)) fs).

(** [null] is [JsonNull]. *)
Definition getProcessedContent (contentId : string) (fs : Fs) : Stored Json :=
  match fs (processed_path contentId) with
  | None => Loaded JsonNull
  | Some (JsonFile content) => Loaded content
  | Some (Unreadable message) => Failed (ReadFailure message)
  end.

Definition saveAnalysis (contentId : string) (analysis : Json) (now_iso : string)
    (fs : Fs) : string * Fs :=
  (contentId,
   writeJSON (analysis_path contentId)
     (JsonObject [ ("contentId", JsonString contentId);
                   ("analysis", analysis);
                   ("savedAt", JsonString now_iso) ]) fs).

Definition getAnalysis (contentId : string) (fs : Fs) : Stored (option Json) :=
  match fs (analysis_path contentId) with
  | None => Loaded (Some JsonNull)
  | Some (JsonFile record) => property "analysis" record
  | Some (Unreadable message) => Failed (ReadFailure message)
  end.

(** [saveToCache]; [now_iso] and [now_ms] are its two clock readings.
    It returns [false] instead of throwing. *)
Definition saveToCache (key : string) (data : Json) (ttlHours : Z)
    (now_iso : string) (now_ms : Z) (fs : Fs) : bool * Fs :=
  match toISOString (now_ms + ttlHours * 60 * 60 * 1000)%Z with
  | None => (false, fs)
  | Some expiresAt =>
      (true,
       writeJSON (cache_path key)
         (JsonObject [ ("key", JsonString key);
                       ("data", data);
                       ("savedAt", JsonString now_iso);
                       ("expiresAt", JsonString expiresAt) ]) fs)
  end.

(** [getFromCache] at time [now_ms]. Every error ends in returning
    null. A comparison with an invalid date is false. *)
Definition getFromCache (key : string) (now_ms : Z) (fs : Fs) : option Json * Fs :=
  match fs (cache_path key) with
  | None => (Some JsonNull, fs)
  | Some (Unreadable _) => (Some JsonNull, fs)
  | Some (JsonFile record) =>
      match property "expiresAt" record with
      | Failed _ => (Some JsonNull, fs)
      | Loaded expiresAt =>
          match date_of expiresAt with
          | Some expiry =>
              if (expiry <? now_ms)%Z
              then (Some JsonNull, remove (cache_path key) fs)
              else
                match property "data" record with
                | Loaded data => (data, fs)
                | Failed _ => (Some JsonNull, fs)
                end
          | None =>
              match property "data" record with
              | Loaded data => (data, fs)
              | Failed _ => (Some JsonNull, fs)
              end
          end
      end
  end.

End Store.

End FileManager.

(** ** Concrete stand-ins for the built-ins and the collaborators *)

Module Fixtures.

(** A backend that answers every request with the same text. *)
Definition answers (text : string) : list Request -> Request -> Reply :=
  fun _ _ => Fulfilled (JStr text) UsageAbsent.

(** A parser that knows three texts. *)
Definition toy_parse (s : string) : option Json :=
  if s =? "[sdi]" then Some (JsonArray [JsonString "sdi"])
  else if s =? "{}" then Some (JsonObject [])
  else if s =? "null" then Some JsonNull
  else None.

(** The last four characters of a name. *)
Definition last_four (name : string) : string :=
  String.substring (String.length name - 4) 4 name.

Definition as_is (s : string) : string := s.

Definition toy_parsers (p : Parser) (path : string) : Outcome string :=
  match p with
  | TextReader => Returned "plain text"
  | PdfParser => Thrown (Rejection "bad XRef entry")
  | _ => Returned ""
  end.

Definition save_ok (id : string) (data : ProcessedData) : option Error := None.

Definition remove_ok (path : string) : option Error := None.

Definition one_document (id : string) : Outcome (option string) :=
  if id =? "doc-1" then Returned (Some "the rfp text") else Returned None.

Definition report_pdf : UploadedFile :=
  mkUploadedFile "report.pdf" "/tmp/upload-1" 2048 "application/pdf".

Definition no_duration (line : string) : bool := false.

Definition one_word (s : string) : nat := 1.

(** Storage: paths joined with a slash, a clock that knows one instant,
    and a disk with one damaged file. *)
Definition toy_join (dir file : string) : string := dir ++ "/" ++ file.

Definition toy_iso (ms : Z) : option string :=
  if (ms =? 86401000)%Z then Some "1970-01-02T00:00:01.000Z" else None.

Definition toy_date (v : option Json) : option Z :=
  match v with
  | Some (JsonString s) =>
      if s =? "1970-01-02T00:00:01.000Z" then Some 86401000%Z else None
  | _ => None
  end.

Definition empty_disk : FileManager.Fs := fun _ => None.

Definition damaged_disk : FileManager.Fs :=
  fun p =>
    if p =? "processed/doc-1.json"
    then Some (FileManager.Unreadable "Unexpected end of JSON input")
    else if p =? "cache/doc-1.json" then Some (FileManager.JsonFile JsonNull)
    else None.

End Fixtures.

(** ** Proof automation *)

(** Case split on the six availability flags of a state. *)
Ltac split_flags st :=
  destruct st as [e [[n1 a1 m1 c1] [n2 a2 m2 c2] [n3 a3 m3 c3]
                     [n4 a4 m4 c4] [n5 a5 m5 c5] [n6 a6 m6 c6]] ca co cg cx en se];
  destruct a1, a2, a3, a4, a5, a6.

(** Unfold an adapter down to the state it returns. *)
Ltac run_adapter :=
  unfold analyzeWithAnthropic, analyzeWithXAI, analyzeWithOpenAI, analyzeWithGroq,
    analyzeWithOllama, analyzeWithHuggingFace, checkOllamaAvailability,
    bind, modify, gets, ret, throw, await in *;
  cbn [fst snd anthropicClient openaiClient groqClient xaiClient env registry
       entered sent enter record_request set_ollama_available with_registry
       ollama available set_available] in *.

Ltac split_key k :=
  unfold dispatch;
  destruct (k =? "anthropic") eqn:?Ek;
  [ | destruct (k =? "xai") eqn:?Ek;
      [ | destruct (k =? "openai") eqn:?Ek;
          [ | destruct (k =? "groq") eqn:?Ek;
              [ | destruct (k =? "ollama") eqn:?Ek;
                  [ | destruct (k =? "huggingface") eqn:?Ek ]]]]].

Ltac settle :=
  repeat match goal with
         | |- context [match ?x with _ => _ end] =>
             lazymatch x with
             | context [match _ with _ => _ end] => fail
             | _ => destruct x eqn:?
             end
         end.

Ltac settle_in H :=
  repeat match type of H with
         | context [match ?x with _ => _ end] =>
             lazymatch x with
             | context [match _ with _ => _ end] => fail
             | _ => destruct x eqn:?
             end
         end.

(** ** Selection without a preference *)

Lemma is_available_In (st : State) (k : string) :
  is_available st k = true <-> In k (available_keys st).
Proof.
  unfold is_available. rewrite existsb_exists. split.
  - intros [x [Hin Heq]]. apply String.eqb_eq in Heq. now subst.
  - intros H. exists k. split; [assumption | apply String.eqb_refl].
Qed.

Lemma getBestProvider_spec (st : State) :
  getBestProvider st = highest_priority_available st.
Proof. split_flags st; reflexivity. Qed.

Lemma getBestProvider_null (st : State) :
  getBestProvider st = JNull <-> getAvailableProviders st = [].
Proof. split_flags st; cbn; split; intros H; (reflexivity || discriminate H). Qed.

Lemma getBestProvider_minimal (st : State) (k : string) :
  getBestProvider st = JStr k ->
  is_available st k = true /\
  forall k', is_available st k' = true -> rank k <= rank k'.
Proof.
  intros H. split.
  - revert H. split_flags st; cbn; intros H; inversion H; reflexivity.
  - intros k' Hk'. apply is_available_In in Hk'. revert H Hk'.
    split_flags st; cbn; intros H Hk'; inversion H; subst; clear H;
      repeat (destruct Hk' as [Hk' | Hk']; [subst k'; cbv; lia | ]);
      contradiction.
Qed.

(** C5. With no preference, [getBestProvider] returns the best-ranked
    provider among those whose [available] flag is set, for the order
    anthropic > xai > ollama > groq > huggingface > openai: it is the
    first available key of that order, it is available and no available
    key ranks before it, it is null exactly when nothing is available, and
    it is determined by the set of available keys alone. *)
Theorem getBestProvider_highest_priority (st : State) :
  getBestProvider st = highest_priority_available st
  /\ ((getBestProvider st = JNull /\ getAvailableProviders st = [])
      \/ (exists k, getBestProvider st = JStr k
                    /\ In k PRIORITY
                    /\ is_available st k = true
                    /\ forall k', is_available st k' = true -> rank k <= rank k'))
  /\ (forall st', (forall k, is_available st' k = is_available st k) ->
                  getBestProvider st' = getBestProvider st).
Proof.
  split; [apply getBestProvider_spec | split].
  - destruct (getBestProvider st) as [ | | k] eqn:E.
    + exfalso. revert E. split_flags st; discriminate.
    + left. split; [reflexivity | now apply getBestProvider_null].
    + right. exists k. split; [reflexivity | ].
      destruct (getBestProvider_minimal st k E) as [Ha Hm].
      split; [ | split; assumption].
      revert E. clear. split_flags st; cbn; intros E; inversion E; cbn; tauto.
  - intros st' Hsame. rewrite !getBestProvider_spec.
    unfold highest_priority_available.
    unfold PRIORITY. cbn [find]. now rewrite !Hsame.
Qed.

(** ** What one adapter call does to the state *)

Section AdapterFacts.

Variable net : list Request -> Request -> Reply.

Lemma same_configuration_refl (st : State) : same_configuration st st.
Proof. repeat split. Qed.

Lemma same_configuration_trans (a b c : State) :
  same_configuration a b -> same_configuration b c -> same_configuration a c.
Proof.
  unfold same_configuration. intros H1 H2.
  repeat match goal with H : _ /\ _ |- _ => destruct H end.
  repeat split; congruence.
Qed.

Lemma dispatch_configuration (k c p : string) (m : JsArg) (st : State) :
  same_configuration st (snd (dispatch net k c p m st)).
Proof.
  split_key k; run_adapter; settle; cbn; repeat split.
Qed.

(** The keys of the registry are fixed, so every available key is one
    [dispatch] knows. *)
Lemma available_keys_known (st : State) (k : string) :
  In k (available_keys st) -> In k KNOWN_KEYS.
Proof.
  unfold available_keys, getAvailableProviders. rewrite in_map_iff.
  intros [[k' p] [Hk Hin]]. cbn in Hk. subst k'.
  apply filter_In in Hin. destruct Hin as [Hin _].
  unfold entries in Hin. cbn in *.
  repeat (destruct Hin as [Hin | Hin]; [inversion Hin; tauto | ]).
  contradiction.
Qed.

Lemma unknown_key_dispatch (k c p : string) (m : JsArg) (st : State) :
  ~ In k KNOWN_KEYS ->
  dispatch net k c p m st = (Thrown (JsError ("Unknown provider: " ++ k)), st).
Proof.
  intros Hk. split_key k;
    try match goal with
        | H : (k =? _) = true |- _ =>
            apply String.eqb_eq in H; subst k; exfalso; apply Hk; cbn; tauto
        end.
  reflexivity.
Qed.

(** A recognised key enters exactly its own adapter, once. *)
Lemma known_key_entered (k c p : string) (m : JsArg) (st : State) :
  In k KNOWN_KEYS ->
  entered (snd (dispatch net k c p m st)) = entered st ++ [k].
Proof.
  intros Hk. cbn in Hk.
  repeat (destruct Hk as [Hk | Hk]; [subst k; cbn; run_adapter; settle; reflexivity | ]).
  contradiction.
Qed.

Lemma known_key_error (k c p : string) (m : JsArg) (st st' : State) (e : Error) :
  In k KNOWN_KEYS ->
  dispatch net k c p m st = (Thrown e, st') ->
  ~ unknown_provider_error e.
Proof.
  intros Hk H [u Hu]. subst e. cbn in Hk.
  repeat (destruct Hk as [Hk | Hk];
          [subst k; cbn in H; run_adapter;
           settle_in H; inversion H | ]).
  contradiction.
Qed.

End AdapterFacts.

(** ** The orchestrator *)

Section OrchestratorFacts.

Variable net : list Request -> Request -> Reply.

Lemma truthy_default_null (v : JsArg) : truthy (default_param JNull v) = truthy v.
Proof. destruct v; reflexivity. Qed.

Lemma truthy_is_string (v : JsArg) :
  truthy v = true -> v = JStr (js_to_string v) /\ js_to_string v <> "".
Proof.
  destruct v as [ | | s]; cbn; try discriminate.
  intros H. split; [reflexivity | ].
  intros ->. discriminate H.
Qed.

Lemma select_truthy (pp : JsArg) (st : State) :
  truthy pp = true -> select pp st = pp.
Proof. unfold select, js_or. now intros ->. Qed.

Lemma select_falsy (pp : JsArg) (st : State) :
  truthy pp = false -> select pp st = getBestProvider st.
Proof. unfold select, js_or. now intros ->. Qed.

Lemma truthy_key (k : string) : k <> "" -> truthy (JStr k) = true.
Proof. intros H. cbn. now apply negb_true_iff, String.eqb_neq. Qed.

Lemma analyzeWithAI_unfold (fuel : nat) (c p : string) (pp pm : JsArg) (st : State) :
  analyzeWithAI net (S fuel) c p pp pm st =
  let provider := select (default_param JNull pp) st in
  if negb (truthy provider) then Some (Thrown NO_PROVIDERS, st)
  else
    match dispatch net (js_to_string provider) c p (default_param JNull pm) st with
    | (Returned r, st') => Some (Returned r, st')
    | (Thrown error, st') =>
        match fallback_candidates (js_to_string provider) st' with
        | next :: _ => analyzeWithAI net fuel c p (JStr (fst next)) JUndefined st'
        | [] => Some (Thrown error, st')
        end
    end.
Proof. reflexivity. Qed.

(** One step of the orchestrator once the key to try is known. *)
Lemma analyzeWithAI_on_key (fuel : nat) (c p k : string) (pp pm : JsArg) (st : State) :
  select (default_param JNull pp) st = JStr k ->
  k <> "" ->
  analyzeWithAI net (S fuel) c p pp pm st =
  match dispatch net k c p (default_param JNull pm) st with
  | (Returned r, st') => Some (Returned r, st')
  | (Thrown error, st') =>
      match fallback_candidates k st' with
      | next :: _ => analyzeWithAI net fuel c p (JStr (fst next)) JUndefined st'
      | [] => Some (Thrown error, st')
      end
  end.
Proof.
  intros Hsel Hk. rewrite analyzeWithAI_unfold. cbv zeta. rewrite Hsel.
  rewrite (truthy_key k Hk). reflexivity.
Qed.

Lemma known_key_nonempty (k : string) : In k KNOWN_KEYS -> k <> "".
Proof.
  cbn. intros H.
  repeat (destruct H as [H | H]; [subst k; discriminate | ]). contradiction.
Qed.

Lemma getBestProvider_known (st : State) (k : string) :
  getBestProvider st = JStr k -> In k KNOWN_KEYS.
Proof.
  intros H. apply (available_keys_known st), is_available_In.
  now apply getBestProvider_minimal.
Qed.

Lemma fallback_candidates_available (k : string) (st : State) (next : string * Provider)
    (rest : list (string * Provider)) :
  fallback_candidates k st = next :: rest ->
  In (fst next) (available_keys st) /\ fst next <> k.
Proof.
  intros H.
  assert (Hin : In next (fallback_candidates k st)) by (rewrite H; now left).
  apply filter_In in Hin. destruct Hin as [Hin Hne]. split.
  - now apply in_map.
  - intros Heq. rewrite Heq, String.eqb_refl in Hne. discriminate.
Qed.

(** The adapters entered by a call extend those entered before it. *)
Lemma dispatch_entered_grows (k c p : string) (m : JsArg) (st : State) :
  exists l, entered (snd (dispatch net k c p m st)) = entered st ++ l.
Proof.
  split_key k; run_adapter; settle; cbn; eexists;
    try reflexivity; symmetry; apply app_nil_r.
Qed.

Lemma analyzeWithAI_entered_grows (fuel : nat) :
  forall c p pp pm st o st',
    analyzeWithAI net fuel c p pp pm st = Some (o, st') ->
    exists l, entered st' = entered st ++ l.
Proof.
  induction fuel as [ | fuel IH]; intros c p pp pm st o st' H; [discriminate | ].
  cbn [analyzeWithAI] in H.
  destruct (negb (truthy (select (default_param JNull pp) st))).
  - inversion H; subst. exists []. symmetry; apply app_nil_r.
  - destruct (dispatch_entered_grows
                (js_to_string (select (default_param JNull pp) st)) c p
                (default_param JNull pm) st) as [l Hl].
    destruct (dispatch net _ c p _ st) as [[r | e] st1] eqn:D; cbn in Hl.
    + inversion H; subst. now exists l.
    + destruct (fallback_candidates _ st1) as [ | next rest].
      * inversion H; subst. now exists l.
      * apply IH in H. destruct H as [l' Hl']. exists (l ++ l').
        now rewrite Hl', Hl, app_assoc.
Qed.

(** Whatever the chain of attempts, only the local provider's flag can
    have changed when the call settles. *)
Lemma analyzeWithAI_configuration (fuel : nat) :
  forall c p pp pm st o st',
    analyzeWithAI net fuel c p pp pm st = Some (o, st') ->
    same_configuration st st'.
Proof.
  induction fuel as [ | fuel IH]; intros c p pp pm st o st' H; [discriminate | ].
  rewrite analyzeWithAI_unfold in H. cbv zeta in H.
  destruct (negb (truthy (select (default_param JNull pp) st))).
  - inversion H; subst. apply same_configuration_refl.
  - pose proof (dispatch_configuration net
                  (js_to_string (select (default_param JNull pp) st)) c p
                  (default_param JNull pm) st) as Hd.
    destruct (dispatch net _ c p _ st) as [[r | e] st1]; cbn [snd] in Hd.
    + inversion H; subst. exact Hd.
    + destruct (fallback_candidates _ st1) as [ | next rest].
      * inversion H; subst. exact Hd.
      * apply IH in H. exact (same_configuration_trans _ _ _ Hd H).
Qed.

(** An error that reaches the caller of a call started on a recognised
    key (or on no key) is never the switch's own "Unknown provider". *)
Lemma recognised_key_error (fuel : nat) :
  forall c p pp pm st e st',
    (truthy pp = true -> In (js_to_string pp) KNOWN_KEYS) ->
    analyzeWithAI net fuel c p pp pm st = Some (Thrown e, st') ->
    ~ unknown_provider_error e.
Proof.
  induction fuel as [ | fuel IH]; intros c p pp pm st e st' Hpp H; [discriminate | ].
  cbn [analyzeWithAI] in H.
  set (sel := select (default_param JNull pp) st) in *.
  assert (Hsel : truthy sel = true -> In (js_to_string sel) KNOWN_KEYS).
  { unfold sel, select, js_or. rewrite truthy_default_null.
    destruct (truthy pp) eqn:T.
    - intros _. destruct pp; try discriminate. now apply Hpp.
    - intros T'. apply truthy_is_string in T'. destruct T' as [T' _].
      now apply (getBestProvider_known st). }
  destruct (truthy sel) eqn:T; cbn [negb] in H.
  - specialize (Hsel eq_refl).
    destruct (dispatch net (js_to_string sel) c p _ st) as [[r | e1] st1] eqn:D;
      [discriminate | ].
    destruct (fallback_candidates _ st1) as [ | next rest] eqn:F.
    + inversion H; subst. eapply known_key_error; eassumption.
    + apply IH in H; [assumption | ]. intros _. cbn.
      apply (available_keys_known st1).
      now apply (fallback_candidates_available _ _ _ _ F).
  - inversion H; subst. intros [k Hk]. discriminate Hk.
Qed.

Lemma unknown_key_candidates (k : string) (st : State) :
  ~ In k KNOWN_KEYS -> fallback_candidates k st = getAvailableProviders st.
Proof.
  intros Hk. unfold fallback_candidates.
  rewrite <- (filter_ext_in (fun _ => true)).
  - induction (getAvailableProviders st) as [ | x l IHl]; cbn; congruence.
  - intros x Hx. destruct (fst x =? k) eqn:E; [ | reflexivity].
    apply String.eqb_eq in E. exfalso. apply Hk.
    apply (available_keys_known st). subst k. now apply in_map.
Qed.

(** C10. A preferred key that [dispatch] has no case for never reaches
    the caller as an "Unknown provider" error while some provider is
    available: the error is caught, an available provider is tried, and
    when that provider's adapter returns, its result is the result of the
    call. For a non-empty unknown key the provider tried is the first
    available entry of the registry, called without a model. *)
Theorem unknown_provider_falls_back
    (fuel : nat) (c p k : string) (pm : JsArg) (st : State) :
  ~ In k KNOWN_KEYS ->
  getAvailableProviders st <> [] ->
  (forall n e st', analyzeWithAI net n c p (JStr k) pm st = Some (Thrown e, st') ->
                   ~ unknown_provider_error e)
  /\ (exists k0 m0,
        In k0 (available_keys st)
        /\ (k <> "" -> Some k0 = hd_error (available_keys st) /\ m0 = JNull)
        /\ forall r st',
             dispatch net k0 c p m0 st = (Returned r, st') ->
             analyzeWithAI net (S (S fuel)) c p (JStr k) pm st = Some (Returned r, st')).
Proof.
  intros Hk Hav. split.
  - intros n e st' H.
    destruct (String.eqb_spec k "") as [E | E].
    + subst k. eapply recognised_key_error; [ | exact H]. discriminate.
    + destruct n as [ | n]; [discriminate | ].
      rewrite (analyzeWithAI_on_key n c p k) in H
        by (cbn [default_param]; auto using select_truthy, truthy_key).
      rewrite unknown_key_dispatch in H by assumption.
      rewrite unknown_key_candidates in H by assumption.
      destruct (getAvailableProviders st) as [ | next rest] eqn:A; [contradiction | ].
      eapply recognised_key_error; [ | exact H].
      intros _. cbn. apply (available_keys_known st).
      unfold available_keys. rewrite A. now left.
  - destruct (String.eqb_spec k "") as [E | E].
    + subst k.
      destruct (getBestProvider st) as [ | | b] eqn:B.
      * exfalso. revert B. clear. split_flags st; discriminate.
      * apply getBestProvider_null in B. contradiction.
      * destruct (getBestProvider_minimal st b B) as [Hb _].
        exists b, (default_param JNull pm). split; [now apply is_available_In | ].
        split; [intros Habs; now contradiction Habs | ].
        intros r st' D.
        rewrite (analyzeWithAI_on_key (S fuel) c p b).
        -- now rewrite D.
        -- cbn [default_param]. now rewrite select_falsy.
        -- eapply known_key_nonempty, getBestProvider_known; eassumption.
    + destruct (getAvailableProviders st) as [ | next rest] eqn:A; [contradiction | ].
      assert (Hnext : In (fst next) (available_keys st)).
      { unfold available_keys. rewrite A. now left. }
      exists (fst next), JNull. split; [assumption | ]. split.
      * intros _. unfold available_keys. rewrite A. now split.
      * intros r st' D.
        rewrite (analyzeWithAI_on_key (S fuel) c p k)
          by (cbn [default_param]; auto using select_truthy, truthy_key).
        rewrite unknown_key_dispatch by assumption.
        rewrite unknown_key_candidates by assumption. rewrite A.
        rewrite (analyzeWithAI_on_key fuel c p (fst next)).
        -- cbn [default_param]. now rewrite D.
        -- cbn [default_param]. apply select_truthy, truthy_key.
           eapply known_key_nonempty, available_keys_known; eassumption.
        -- eapply known_key_nonempty, available_keys_known; eassumption.
Qed.

Lemma fallback_candidates_head (failed : string) (st : State) :
  hd_error (map fst (fallback_candidates failed st)) = registry_order_fallback failed st.
Proof.
  unfold fallback_candidates, registry_order_fallback.
  pose (ne := fun x : string => negb (x =? failed)).
  change (hd_error (map fst (filter (fun q => ne (fst q)) (getAvailableProviders st)))
          = find (fun k => is_available st k && ne k) KNOWN_KEYS).
  clearbody ne.
  split_flags st; cbn;
    repeat match goal with
           | |- context [ne ?x] => destruct (ne x); cbn; try reflexivity
           end;
    reflexivity.
Qed.

(** C4, as the code has it. When the attempt on the selected provider
    throws, the next provider tried is the first one, in the order the
    registry declares its keys (anthropic, xai, openai, groq, ollama,
    huggingface), that is available after the failed attempt and is not
    the provider that just failed; with no such provider the error is
    rethrown. *)
Theorem fallback_follows_registry_order
    (fuel : nat) (c p k : string) (pp pm : JsArg) (st st1 : State) (e : Error) :
  select (default_param JNull pp) st = JStr k ->
  k <> "" ->
  dispatch net k c p (default_param JNull pm) st = (Thrown e, st1) ->
  analyzeWithAI net (S fuel) c p pp pm st =
    match registry_order_fallback k st1 with
    | Some next => analyzeWithAI net fuel c p (JStr next) JUndefined st1
    | None => Some (Thrown e, st1)
    end
  /\ forall next, registry_order_fallback k st1 = Some next ->
                  is_available st1 next = true /\ next <> k.
Proof.
  intros Hsel Hk D. split.
  - rewrite (analyzeWithAI_on_key fuel c p k pp pm st Hsel Hk), D.
    rewrite <- fallback_candidates_head.
    destruct (fallback_candidates k st1); reflexivity.
  - intros next Hn. rewrite <- fallback_candidates_head in Hn.
    destruct (fallback_candidates k st1) as [ | x l] eqn:F; [discriminate | ].
    cbn in Hn. inversion Hn; subst next.
    destruct (fallback_candidates_available _ _ _ _ F) as [Hin Hne].
    split; [now apply is_available_In | assumption].
Qed.

Lemma thrown_by_last_attempt (fuel : nat) :
  forall c p pp pm st e st',
    analyzeWithAI net fuel c p pp pm st = Some (Thrown e, st') ->
    (e = NO_PROVIDERS /\ st' = st
     /\ truthy (select (default_param JNull pp) st) = false)
    \/ exists k m st0,
         dispatch net k c p m st0 = (Thrown e, st')
         /\ fallback_candidates k st' = [].
Proof.
  induction fuel as [ | fuel IH]; intros c p pp pm st e st' H; [discriminate | ].
  rewrite analyzeWithAI_unfold in H. cbv zeta in H.
  destruct (truthy (select (default_param JNull pp) st)) eqn:T; cbn [negb] in H.
  - destruct (dispatch net _ c p _ st) as [[r | e1] st1] eqn:D; [discriminate | ].
    destruct (fallback_candidates _ st1) as [ | next rest] eqn:F.
    + inversion H; subst. right. eauto.
    + apply IH in H. destruct H as [[_ [_ Hsel]] | H]; [ | right; exact H].
      (* the recursive call is on a non-empty key, so it dispatches *)
      exfalso.
      destruct (fallback_candidates_available _ _ _ _ F) as [Hin _].
      apply available_keys_known, known_key_nonempty, truthy_key in Hin.
      cbn [default_param] in Hsel. rewrite select_truthy in Hsel by assumption.
      congruence.
  - inversion H; subst. now left.
Qed.

(** C2, as the code has it. When the attempt on the selected provider
    throws and no other provider is available, the caller gets that
    attempt's error. When a fallback is made, the first error is not kept:
    an error that reaches the caller is either the no-provider error of a
    call that tried nothing, or the error thrown by the last adapter
    attempted, after which no other provider was available. *)
Theorem surfaced_error_is_last_attempt
    (fuel : nat) (c p : string) (pp pm : JsArg) (st : State) :
  (forall k e st1,
      select (default_param JNull pp) st = JStr k ->
      k <> "" ->
      dispatch net k c p (default_param JNull pm) st = (Thrown e, st1) ->
      fallback_candidates k st1 = [] ->
      analyzeWithAI net (S fuel) c p pp pm st = Some (Thrown e, st1))
  /\ (forall e st',
        analyzeWithAI net fuel c p pp pm st = Some (Thrown e, st') ->
        (e = NO_PROVIDERS /\ st' = st)
        \/ exists k m st0,
             dispatch net k c p m st0 = (Thrown e, st')
             /\ fallback_candidates k st' = []).
Proof.
  split.
  - intros k e st1 Hsel Hk D F.
    now rewrite (analyzeWithAI_on_key fuel c p k pp pm st Hsel Hk), D, F.
  - intros e st' H. apply thrown_by_last_attempt in H.
    destruct H as [[He [Hst _]] | H]; [left; now split | right; exact H].
Qed.

(** C3, as the code has it. A non-empty preferred key is selected
    whether or not its provider is available: availability is not
    consulted. That provider's adapter is the first one entered, and when
    it returns, its result is the result of the call. The priority order
    is used only when no preference is given (undefined, null or the
    empty string). *)
Theorem preference_is_not_checked
    (fuel : nat) (c p k : string) (pm : JsArg) (st : State) :
  k <> "" ->
  select (JStr k) st = JStr k
  /\ (forall r st',
        dispatch net k c p (default_param JNull pm) st = (Returned r, st') ->
        analyzeWithAI net (S fuel) c p (JStr k) pm st = Some (Returned r, st'))
  /\ (In k KNOWN_KEYS ->
      forall o st', analyzeWithAI net (S fuel) c p (JStr k) pm st = Some (o, st') ->
                    exists rest, entered st' = entered st ++ k :: rest)
  /\ (forall pp, truthy pp = false -> select pp st = getBestProvider st).
Proof.
  intros Hk. split; [apply select_truthy, truthy_key, Hk | split; [ | split]].
  - intros r st' D.
    rewrite (analyzeWithAI_on_key fuel c p k)
      by (cbn [default_param]; auto using select_truthy, truthy_key).
    now rewrite D.
  - intros Hknown o st' H.
    rewrite (analyzeWithAI_on_key fuel c p k) in H
      by (cbn [default_param]; auto using select_truthy, truthy_key).
    pose proof (known_key_entered net k c p (default_param JNull pm) st Hknown) as He.
    destruct (dispatch net k c p _ st) as [[r | e] st1]; cbn [snd] in He.
    + inversion H; subst. now exists [].
    + destruct (fallback_candidates k st1) as [ | next rest].
      * inversion H; subst. now exists [].
      * apply analyzeWithAI_entered_grows in H. destruct H as [l Hl].
        exists l. now rewrite Hl, He, <- app_assoc.
  - intros pp. apply select_falsy.
Qed.

(** C6, as the code has it. With no provider available, [getBestProvider]
    returns null, and a call of [analyzeWithAI] that names no provider
    throws the no-provider error with the state untouched: no adapter is
    entered and no request is made. [analyzeRFP] checks the list of
    available providers itself and throws before calling the
    orchestrator, whatever the preference. *)
Theorem no_provider_without_preference
    (fuel : nat) (template : string -> string) (c p : string) (pp pm : JsArg)
    (st : State) :
  getAvailableProviders st = [] ->
  getBestProvider st = JNull
  /\ (truthy pp = false ->
      analyzeWithAI net (S fuel) c p pp pm st = Some (Thrown NO_PROVIDERS, st))
  /\ analyzeRFP_invoke net fuel template c pp pm st
     = Some (Thrown NO_PROVIDERS_CONFIGURED, st).
Proof.
  intros Hnone.
  assert (Hbest : getBestProvider st = JNull) by now apply getBestProvider_null.
  split; [assumption | split].
  - intros Hpp. rewrite analyzeWithAI_unfold. cbv zeta.
    rewrite select_falsy by now rewrite truthy_default_null.
    now rewrite Hbest.
  - unfold analyzeRFP_invoke. now rewrite Hnone.
Qed.



End OrchestratorFacts.

(** ** Truncation *)

Lemma substring_0_length (n : nat) (s : string) :
  String.length (String.substring 0 n s) = Nat.min n (String.length s).
Proof.
  revert n. induction s as [ | ch s IH]; intros [ | n]; cbn; try reflexivity.
  now rewrite IH.
Qed.

Lemma substring_0_idem (n : nat) (s : string) :
  String.substring 0 (String.length (String.substring 0 n s)) s = String.substring 0 n s.
Proof.
  revert n. induction s as [ | ch s IH]; intros [ | n]; cbn; try reflexivity.
  now rewrite IH.
Qed.

Lemma js_substring_0 (n : nat) (s : string) :
  js_substring 0 n s = String.substring 0 (Nat.min n (String.length s)) s.
Proof.
  unfold js_substring. cbn [Nat.min]. rewrite Nat.max_0_l, Nat.sub_0_r. reflexivity.
Qed.

Lemma js_substring_0_length (n : nat) (s : string) :
  String.length (js_substring 0 n s) = Nat.min n (String.length s).
Proof. rewrite js_substring_0, substring_0_length. lia. Qed.

Lemma js_substring_0_prefix (n : nat) (s : string) :
  String.prefix (js_substring 0 n s) s = true.
Proof. rewrite js_substring_0. apply String.prefix_correct, substring_0_idem. Qed.

Lemma js_substring_0_short (n : nat) (s : string) :
  String.length s <= n -> js_substring 0 n s = s.
Proof.
  intros H. rewrite js_substring_0, Nat.min_r by assumption.
  apply String.prefix_correct. clear. induction s as [ | ch s IH]; cbn; [reflexivity | ].
  destruct (Ascii.ascii_dec ch ch); [assumption | contradiction].
Qed.

Lemma new_requests_app (st st' : State) (l : list Request) :
  sent st' = sent st ++ l -> new_requests st st' = l.
Proof.
  unfold new_requests. intros ->.
  rewrite skipn_app, skipn_all, Nat.sub_diag. reflexivity.
Qed.

Section Payloads.

Variable net : list Request -> Request -> Reply.

(** C7, as the code has it. Only the local (ollama) adapter sends the
    document argument, cut to its first 3000 characters and placed after
    the whole prompt. The anthropic, xai, openai and groq adapters send
    the prompt whole and never the document argument. The huggingface
    adapter sends the first 1000 characters of the prompt itself, so a
    longer prompt does not arrive whole, and never the document
    argument. *)
Theorem adapter_payloads
    (k c p : string) (m : JsArg) (st : State) (q : Request) (t : string) :
  In q (new_requests st (snd (dispatch net k c p m st))) ->
  user_text q = Some t ->
  (k = "ollama"
   /\ exists d : string,
        t = (p ++ DOCUMENT_SEPARATOR ++ d)%string
                /\ d = js_substring 0 3000 c
                /\ String.length d = Nat.min 3000 (String.length c)
                /\ String.prefix d c = true)
  \/ (k = "huggingface"
      /\ t = js_substring 0 1000 p
      /\ String.length t = Nat.min 1000 (String.length p)
      /\ String.prefix t p = true
      /\ (String.length p <= 1000 -> t = p))
  \/ (In k ["anthropic"; "xai"; "openai"; "groq"] /\ t = p).
Proof.
  intros Hin Ht.
  assert (Hshape : forall l, sent (snd (dispatch net k c p m st)) = sent st ++ l ->
                             In q l).
  { intros l Hl. now rewrite (new_requests_app _ _ l Hl) in Hin. }
  clear Hin. revert Hshape.
  split_key k;
    try match goal with
        | H : (k =? _) = true |- _ => apply String.eqb_eq in H; subst k
        end;
    run_adapter; settle; cbn [snd sent]; intros Hshape;
    try (specialize (Hshape [] (eq_sym (app_nil_r _))); contradiction);
    try (specialize (Hshape [_] eq_refl); destruct Hshape as [<- | []];
         cbn in Ht; inversion Ht; subst t);
    try (specialize (Hshape [_; _] (eq_sym (app_assoc _ [_] [_])));
         destruct Hshape as [<- | [<- | []]];
         cbn in Ht; inversion Ht; subst t).
  all: try (right; right; split; [cbn; tauto | reflexivity]).
  all: try (left; split; [reflexivity | ];
            eexists; repeat split;
            [apply js_substring_0_length | apply js_substring_0_prefix]).
  all: try (right; left; split; [reflexivity | ]; repeat split;
            [apply js_substring_0_length | apply js_substring_0_prefix
            | apply js_substring_0_short]).
Qed.

(** Where the default model is the first entry of the provider's list:
    the xai, openai, groq and ollama adapters always, and the anthropic
    adapter when its model argument is [undefined]. Every request that
    names a model names that one, and so does a returned result. *)
Lemma default_model_is_first_entry
    (e : Env) (k c p : string) (m : JsArg) (st : State) :
  In k ["xai"; "openai"; "groq"; "ollama"] \/ (k = "anthropic" /\ m = JUndefined) ->
  (forall q, In q (new_requests st (snd (dispatch net k c p m st))) ->
             request_model q = None \/ request_model q = first_model k (providers e))
  /\ (forall r st', dispatch net k c p m st = (Returned r, st') ->
                    Some (model r) = first_model k (providers e)).
Proof.
  intros Hk.
  assert (Hk' : k = "xai" \/ k = "openai" \/ k = "groq" \/ k = "ollama"
                \/ (k = "anthropic" /\ m = JUndefined)).
  { destruct Hk as [Hk | Hk]; [cbn in Hk | tauto].
    repeat (destruct Hk as [Hk | Hk]; [subst k; auto 6 | ]). contradiction. }
  clear Hk. split.
  - intros q Hin.
    assert (Hshape : forall l, sent (snd (dispatch net k c p m st)) = sent st ++ l ->
                               In q l).
    { intros l Hl. now rewrite (new_requests_app _ _ l Hl) in Hin. }
    clear Hin. revert Hshape.
    destruct Hk' as [-> | [-> | [-> | [-> | [-> ->]]]]];
      cbn [dispatch String.eqb Ascii.eqb Bool.eqb]; run_adapter; settle;
      cbn [snd sent]; intros Hshape;
      try (specialize (Hshape [] (eq_sym (app_nil_r _))); contradiction);
      try (specialize (Hshape [_] eq_refl); destruct Hshape as [<- | []];
           (left; reflexivity) || (right; reflexivity));
      try (specialize (Hshape [_; _] (eq_sym (app_assoc _ [_] [_])));
           destruct Hshape as [<- | [<- | []]];
           (left; reflexivity) || (right; reflexivity)).
  - intros r st' D. revert D.
    destruct Hk' as [-> | [-> | [-> | [-> | [-> ->]]]]];
      cbn [dispatch String.eqb Ascii.eqb Bool.eqb]; run_adapter; intros D;
      settle_in D; inversion D; reflexivity.
Qed.

End Payloads.

(** ** Concrete runs *)

(** *** The fallback chain *)

Lemma both_refuse_forever (fuel : nat) :
  forall c p pp pm st,
    registry st = providers openai_and_groq ->
    openaiClient st = openaiClient (boot openai_and_groq) ->
    groqClient st = groqClient (boot openai_and_groq) ->
    pp = JUndefined \/ pp = JNull \/ pp = JStr "openai" \/ pp = JStr "groq" ->
    analyzeWithAI all_down fuel c p pp pm st = None.
Proof.
  induction fuel as [ | fuel IH]; intros c p pp pm st Hr Ho Hg Hpp; [reflexivity | ].
  destruct st as [e r ca co cg cx en se]. cbn in Hr, Ho, Hg. subst r co cg.
  rewrite analyzeWithAI_unfold.
  destruct Hpp as [-> | [-> | [-> | ->]]]; cbn; apply IH; cbn; auto.
Qed.

(** C1 fails on the code. With openai and groq configured and both
    refusing twice, one call enters groq, then openai, then groq again:
    three attempts, one provider twice. With both refusing for good the
    call never settles, whatever the recursion budget. *)
Theorem fallback_retries_without_bound :
  outcome_of (analyzeWithAI (up_after 2) 3 "doc" "prompt" JUndefined JUndefined
                (boot openai_and_groq))
  = Some (Returned (mkResult (JStr "{}") "groq" (JStr "llama3-8b-8192")
                             (UsageTokens 10 20)))
  /\ entered_by (analyzeWithAI (up_after 2) 3 "doc" "prompt" JUndefined JUndefined
                   (boot openai_and_groq))
     = Some ["groq"; "openai"; "groq"]
  /\ option_map (@List.length Request)
       (sent_by (analyzeWithAI (up_after 2) 3 "doc" "prompt" JUndefined JUndefined
                   (boot openai_and_groq)))
     = Some 3
  /\ forall fuel,
       analyzeWithAI all_down fuel "doc" "prompt" JUndefined JUndefined
         (boot openai_and_groq) = None.
Proof.
  repeat split; try (vm_compute; reflexivity).
  intros fuel. apply both_refuse_forever; auto.
Qed.

(** C2 fails on the code. The local service was up at start-up and has
    stopped since; openai is configured but refuses. The first attempt
    (ollama, chosen by priority) throws "Ollama not available", the
    fallback (openai) is refused, and the caller gets the fallback's
    refusal, not the first attempt's error. *)
Lemma fallback_error_replaces_first_error :
  getBestProvider (started local_service_stops openai_only) = JStr "ollama"
  /\ fst (dispatch local_service_stops "ollama" "doc" "prompt" JNull
            (started local_service_stops openai_only))
     = Thrown (JsError "Ollama not available. Please install and run Ollama locally.")
  /\ outcome_of (analyzeWithAI local_service_stops 2 "doc" "prompt" JUndefined JUndefined
                   (started local_service_stops openai_only))
     = Some (Thrown (Rejection "429 insufficient_quota"))
  /\ entered_by (analyzeWithAI local_service_stops 2 "doc" "prompt" JUndefined JUndefined
                   (started local_service_stops openai_only))
     = Some ["ollama"; "openai"].
Proof. repeat split; vm_compute; reflexivity. Qed.

(** C3 fails on the code. Anthropic is not configured, openai and groq
    are; a call that prefers anthropic selects anthropic all the same,
    enters its adapter, and is then served by openai, where the priority
    order over the available providers gives groq. *)
Lemma unavailable_preference_is_selected :
  is_available (boot openai_and_groq) "anthropic" = false
  /\ select (JStr "anthropic") (boot openai_and_groq) = JStr "anthropic"
  /\ getBestProvider (boot openai_and_groq) = JStr "groq"
  /\ entered_by (analyzeWithAI all_up 2 "doc" "prompt" (JStr "anthropic") JUndefined
                   (boot openai_and_groq))
     = Some ["anthropic"; "openai"].
Proof. repeat split; vm_compute; reflexivity. Qed.

(** C4 fails on the code. Anthropic, openai and groq are configured and
    anthropic refuses: the fallback tried is openai, the next key of the
    registry, where the priority order over the remaining providers
    gives groq. *)
Lemma fallback_is_not_by_priority :
  entered_by (analyzeWithAI (up_after 1) 2 "doc" "prompt" JUndefined JUndefined
                (boot anthropic_openai_groq))
  = Some ["anthropic"; "openai"]
  /\ priority_order_fallback "anthropic" (boot anthropic_openai_groq) = Some "groq"
  /\ registry_order_fallback "anthropic" (boot anthropic_openai_groq) = Some "openai".
Proof. repeat split; vm_compute; reflexivity. Qed.

(** C6 fails on the code. With nothing available, a call that names
    anthropic enters the adapter and fails with "Anthropic not
    configured", not with the no-provider error; a call that names
    ollama probes the local service, and when it answers, makes the
    generate request and returns. *)
Lemma named_provider_skips_the_check :
  getAvailableProviders (boot no_keys) = []
  /\ outcome_of (analyzeWithAI all_up 1 "doc" "prompt" (JStr "anthropic") JUndefined
                   (boot no_keys))
     = Some (Thrown (JsError "Anthropic not configured"))
  /\ entered_by (analyzeWithAI all_up 1 "doc" "prompt" (JStr "anthropic") JUndefined
                   (boot no_keys))
     = Some ["anthropic"]
  /\ option_map provider_of
       (outcome_of (analyzeWithAI all_up 1 "doc" "prompt" (JStr "ollama") JUndefined
                      (boot no_keys)))
     = Some (Some "ollama")
  /\ option_map (@List.length Request)
       (sent_by (analyzeWithAI all_up 1 "doc" "prompt" (JStr "ollama") JUndefined
                   (boot no_keys)))
     = Some 2.
Proof. repeat split; vm_compute; reflexivity. Qed.

(** C7 fails on the code. A document and a prompt of 1001 characters
    each go to the huggingface adapter: the one request made carries the
    first 1000 characters of the prompt and nothing of the document. *)
Lemma huggingface_cuts_the_prompt :
  sent (snd (dispatch all_up "huggingface" (replicate 1001 "d") (replicate 1001 "p")
               JUndefined (boot huggingface_only)))
  = [HuggingFaceInference
       "https://api-inference.huggingface.co/models/microsoft/DialoGPT-large"
       (replicate 1000 "p") 500 "Bearer hf-1"]
  /\ replicate 1000 "p" <> replicate 1001 "p".
Proof.
  split; [vm_compute; reflexivity | ].
  intros H. apply (f_equal String.length) in H. vm_compute in H. discriminate H.
Qed.

(** C8 fails on the code, in two places. The huggingface adapter calls
    the first model of its list, "microsoft/DialoGPT-large", and reports
    "DialoGPT-large". Through the orchestrator the anthropic adapter gets
    [null] for a model the caller did not give; its default only replaces
    [undefined], so the request and the result carry [null]. *)
Theorem default_model_slips :
  option_map model_of
    (outcome_of (analyzeWithAI all_up 1 "doc" "prompt" (JStr "huggingface") JUndefined
                   (boot huggingface_only)))
  = Some (Some (JStr "DialoGPT-large"))
  /\ hd_error (models (huggingface (providers huggingface_only)))
     = Some "microsoft/DialoGPT-large"
  /\ option_map model_of
       (outcome_of (analyzeWithAI all_up 1 "doc" "prompt" JUndefined JUndefined
                      (boot anthropic_only)))
     = Some (Some JNull)
  /\ sent_by (analyzeWithAI all_up 1 "doc" "prompt" JUndefined JUndefined
                (boot anthropic_only))
     = Some [MessagesCreate (mkClient AnthropicSdk (JStr "sk-ant-1") None) JNull 4000
               SYSTEM_PROMPT "prompt"]
  /\ hd_error (models (anthropic (providers anthropic_only)))
     = Some "claude-3-5-sonnet-20241022".
Proof. repeat split; vm_compute; reflexivity. Qed.

(** *** The general statements at concrete inputs *)

Lemma getBestProvider_highest_priority_witness :
  getBestProvider (boot openai_and_groq) = highest_priority_available (boot openai_and_groq)
  /\ getBestProvider (boot openai_and_groq) = JStr "groq".
Proof.
  split.
  - exact (proj1 (getBestProvider_highest_priority (boot openai_and_groq))).
  - reflexivity.
Defined.

Lemma unknown_provider_falls_back_witness :
  ~ In "gemini" KNOWN_KEYS
  /\ getAvailableProviders (boot openai_and_groq) <> []
  /\ (forall n e st',
         analyzeWithAI all_up n "doc" "prompt" (JStr "gemini") JUndefined
           (boot openai_and_groq) = Some (Thrown e, st') ->
         ~ unknown_provider_error e)
  /\ (exists k0 m0,
         In k0 (available_keys (boot openai_and_groq))
         /\ ("gemini" <> "" ->
             Some k0 = hd_error (available_keys (boot openai_and_groq)) /\ m0 = JNull)
         /\ forall r st',
              dispatch all_up k0 "doc" "prompt" m0 (boot openai_and_groq)
              = (Returned r, st') ->
              analyzeWithAI all_up 2 "doc" "prompt" (JStr "gemini") JUndefined
                (boot openai_and_groq) = Some (Returned r, st')).
Proof.
  assert (H1 : ~ In "gemini" KNOWN_KEYS).
  { cbn. intros H. repeat (destruct H as [H | H]; [discriminate H | ]). exact H. }
  assert (H2 : getAvailableProviders (boot openai_and_groq) <> []).
  { vm_compute. discriminate. }
  split; [exact H1 | split; [exact H2 | ]].
  exact (unknown_provider_falls_back all_up 0 "doc" "prompt" "gemini" JUndefined
           (boot openai_and_groq) H1 H2).
Defined.

Lemma fallback_follows_registry_order_witness :
  select (default_param JNull JUndefined) (boot anthropic_openai_groq) = JStr "anthropic"
  /\ "anthropic" <> ""
  /\ dispatch (up_after 1) "anthropic" "doc" "prompt" (default_param JNull JUndefined)
       (boot anthropic_openai_groq)
     = (Thrown (Rejection "503 Service Unavailable"),
        snd (dispatch (up_after 1) "anthropic" "doc" "prompt" JNull
               (boot anthropic_openai_groq)))
  /\ analyzeWithAI (up_after 1) 2 "doc" "prompt" JUndefined JUndefined
       (boot anthropic_openai_groq)
     = analyzeWithAI (up_after 1) 1 "doc" "prompt" (JStr "openai") JUndefined
         (snd (dispatch (up_after 1) "anthropic" "doc" "prompt" JNull
                 (boot anthropic_openai_groq))).
Proof.
  assert (H1 : select (default_param JNull JUndefined) (boot anthropic_openai_groq)
               = JStr "anthropic") by reflexivity.
  assert (H2 : "anthropic" <> "") by discriminate.
  assert (H3 : dispatch (up_after 1) "anthropic" "doc" "prompt"
                 (default_param JNull JUndefined) (boot anthropic_openai_groq)
               = (Thrown (Rejection "503 Service Unavailable"),
                  snd (dispatch (up_after 1) "anthropic" "doc" "prompt" JNull
                         (boot anthropic_openai_groq)))) by reflexivity.
  split; [exact H1 | split; [exact H2 | split; [exact H3 | ]]].
  exact (proj1 (fallback_follows_registry_order (up_after 1) 1 "doc" "prompt" "anthropic"
                  JUndefined JUndefined _ _ _ H1 H2 H3)).
Defined.

Lemma surfaced_error_is_last_attempt_witness :
  select (default_param JNull (JStr "anthropic")) (boot no_keys) = JStr "anthropic"
  /\ "anthropic" <> ""
  /\ dispatch all_up "anthropic" "doc" "prompt" (default_param JNull JUndefined)
       (boot no_keys)
     = (Thrown (JsError "Anthropic not configured"), enter "anthropic" (boot no_keys))
  /\ fallback_candidates "anthropic" (enter "anthropic" (boot no_keys)) = []
  /\ analyzeWithAI all_up 1 "doc" "prompt" (JStr "anthropic") JUndefined (boot no_keys)
     = Some (Thrown (JsError "Anthropic not configured"),
             enter "anthropic" (boot no_keys)).
Proof.
  assert (H1 : select (default_param JNull (JStr "anthropic")) (boot no_keys)
               = JStr "anthropic") by reflexivity.
  assert (H2 : "anthropic" <> "") by discriminate.
  assert (H3 : dispatch all_up "anthropic" "doc" "prompt" (default_param JNull JUndefined)
                 (boot no_keys)
               = (Thrown (JsError "Anthropic not configured"),
                  enter "anthropic" (boot no_keys))) by reflexivity.
  assert (H4 : fallback_candidates "anthropic" (enter "anthropic" (boot no_keys)) = [])
    by reflexivity.
  split; [exact H1 | split; [exact H2 | split; [exact H3 | split; [exact H4 | ]]]].
  exact (proj1 (surfaced_error_is_last_attempt all_up 0 "doc" "prompt"
                  (JStr "anthropic") JUndefined (boot no_keys)) _ _ _ H1 H2 H3 H4).
Defined.

Lemma preference_is_not_checked_witness :
  "anthropic" <> ""
  /\ select (JStr "anthropic") (boot openai_and_groq) = JStr "anthropic"
  /\ (forall r st',
        dispatch all_up "anthropic" "doc" "prompt" (default_param JNull JUndefined)
          (boot openai_and_groq) = (Returned r, st') ->
        analyzeWithAI all_up 2 "doc" "prompt" (JStr "anthropic") JUndefined
          (boot openai_and_groq) = Some (Returned r, st'))
  /\ (In "anthropic" KNOWN_KEYS ->
      forall o st',
        analyzeWithAI all_up 2 "doc" "prompt" (JStr "anthropic") JUndefined
          (boot openai_and_groq) = Some (o, st') ->
        exists rest, entered st' = entered (boot openai_and_groq) ++ "anthropic" :: rest)
  /\ (forall pp, truthy pp = false ->
                 select pp (boot openai_and_groq) = getBestProvider (boot openai_and_groq)).
Proof.
  assert (H1 : "anthropic" <> "") by discriminate.
  split; [exact H1 | ].
  exact (preference_is_not_checked all_up 1 "doc" "prompt" "anthropic" JUndefined
           (boot openai_and_groq) H1).
Defined.

Lemma no_provider_without_preference_witness :
  getAvailableProviders (boot no_keys) = []
  /\ getBestProvider (boot no_keys) = JNull
  /\ (truthy JNull = false ->
      analyzeWithAI all_up 1 "doc" "prompt" JNull JUndefined (boot no_keys)
      = Some (Thrown NO_PROVIDERS, boot no_keys))
  /\ analyzeRFP_invoke all_up 0 (String.append "Analyze: ") "doc" JNull
       JUndefined (boot no_keys)
     = Some (Thrown NO_PROVIDERS_CONFIGURED, boot no_keys).
Proof.
  assert (H1 : getAvailableProviders (boot no_keys) = []) by reflexivity.
  split; [exact H1 | ].
  exact (no_provider_without_preference all_up 0 (String.append "Analyze: ")
           "doc" "prompt" JNull JUndefined (boot no_keys) H1).
Defined.


Lemma adapter_payloads_witness :
  In (OllamaGenerate "http://localhost:11434/api/generate" "llama3"
        ("prompt" ++ DOCUMENT_SEPARATOR ++ replicate 3000 "d") 2000)
     (new_requests (boot no_keys)
        (snd (dispatch all_up "ollama" (replicate 3500 "d") "prompt" JUndefined
                (boot no_keys))))
  /\ user_text (OllamaGenerate "http://localhost:11434/api/generate" "llama3"
                  ("prompt" ++ DOCUMENT_SEPARATOR ++ replicate 3000 "d") 2000)
     = Some ("prompt" ++ DOCUMENT_SEPARATOR ++ replicate 3000 "d")%string
  /\ exists d : string,
       ("prompt" ++ DOCUMENT_SEPARATOR ++ replicate 3000 "d")%string
       = ("prompt" ++ DOCUMENT_SEPARATOR ++ d)%string
       /\ d = js_substring 0 3000 (replicate 3500 "d")
       /\ String.length d = Nat.min 3000 (String.length (replicate 3500 "d"))
       /\ String.prefix d (replicate 3500 "d") = true.
Proof.
  assert (H1 : In (OllamaGenerate "http://localhost:11434/api/generate" "llama3"
                     ("prompt" ++ DOCUMENT_SEPARATOR ++ replicate 3000 "d") 2000)
                  (new_requests (boot no_keys)
                     (snd (dispatch all_up "ollama" (replicate 3500 "d") "prompt"
                             JUndefined (boot no_keys))))).
  { vm_compute. right. left. reflexivity. }
  assert (H2 : user_text (OllamaGenerate "http://localhost:11434/api/generate" "llama3"
                            ("prompt" ++ DOCUMENT_SEPARATOR ++ replicate 3000 "d") 2000)
               = Some ("prompt" ++ DOCUMENT_SEPARATOR ++ replicate 3000 "d")%string)
    by reflexivity.
  split; [exact H1 | split; [exact H2 | ]].
  destruct (adapter_payloads all_up "ollama" (replicate 3500 "d") "prompt" JUndefined
              (boot no_keys) _ _ H1 H2) as [[_ H] | [[H _] | [H _]]].
  - exact H.
  - discriminate H.
  - exfalso. cbn in H. repeat (destruct H as [H | H]; [discriminate H | ]). exact H.
Defined.

(** ** More on the registry and the adapters *)

Section MoreAdapterFacts.

Variable net : list Request -> Request -> Reply.

Lemma probe_outcome (st : State) :
  checkOllamaAvailability net st
  = (Returned (match net (sent st) PROBE with Fulfilled _ _ => true | Rejected _ => false end),
     set_ollama_available (local_service_up net (sent st)) (record_request PROBE st)).
Proof.
  unfold checkOllamaAvailability, await, local_service_up, PROBE.
  destruct (net (sent st) _); reflexivity.
Qed.

Lemma set_ollama_available_keys (b : bool) (st : State) :
  is_available (set_ollama_available b st) "ollama" = b
  /\ same_configuration st (set_ollama_available b st)
  /\ sent (set_ollama_available b st) = sent st
  /\ entered (set_ollama_available b st) = entered st.
Proof.
  split; [ | repeat split].
  destruct b; split_flags st; reflexivity.
Qed.

(** Start-up report. [initializeProviders] never throws and makes
    exactly one request, the probe. The local provider is listed exactly
    when the probe was answered with a truthy body; the hosted providers
    are listed as before. [total] is the length of the list, and
    [recommended] is a key of the list, or null exactly when the list is
    empty. *)
Theorem initializeProviders_report (st : State) :
  exists avail recommended st',
    initializeProviders net st = (Returned (avail, recommended, List.length avail), st')
    /\ sent st' = sent st ++ [PROBE]
    /\ avail = getAvailableProviders st'
    /\ is_available st' "ollama" = local_service_up net (sent st)
    /\ (forall k, In k HOSTED_KEYS -> is_available st' k = is_available st k)
    /\ (recommended = JNull <-> avail = [])
    /\ (forall k, recommended = JStr k -> In k (map fst avail)).
Proof.
  unfold initializeProviders, bind, gets, ret. rewrite probe_outcome.
  set (st' := set_ollama_available _ _).
  exists (getAvailableProviders st'), (getBestProvider st'), st'.
  destruct (set_ollama_available_keys (local_service_up net (sent st))
              (record_request PROBE st)) as [Hup [Hcfg [Hsent _]]].
  fold st' in Hup, Hcfg, Hsent.
  split; [reflexivity | ]. split; [exact Hsent | ]. split; [reflexivity | ].
  split; [exact Hup | ]. split; [ | split].
  - intros k Hk. subst st'. clear - Hk.
    generalize (local_service_up net (sent st)). intros b. cbn in Hk.
    repeat (destruct Hk as [Hk | Hk]; [subst k; destruct b; split_flags st; reflexivity | ]).
    contradiction.
  - apply getBestProvider_null.
  - intros k Hk. apply getBestProvider_minimal in Hk. destruct Hk as [Hk _].
    now apply is_available_In in Hk.
Qed.

Lemma hosted_gate (k c p : string) (m : JsArg) (st : State) :
  In k HOSTED_KEYS ->
  (has_credentials k st = false ->
   exists msg, dispatch net k c p m st = (Thrown (JsError msg), enter k st))
  /\ (has_credentials k st = true ->
      exists q, sent (snd (dispatch net k c p m st)) = sent st ++ [q]
                /\ user_text q <> None).
Proof.
  intros Hk. cbn in Hk.
  repeat (destruct Hk as [Hk | Hk];
          [subst k; unfold has_credentials; cbn [String.eqb Ascii.eqb Bool.eqb];
           cbn [dispatch String.eqb Ascii.eqb Bool.eqb]; run_adapter;
           split; intros Hc; try rewrite Hc; cbn [negb]; settle; try discriminate Hc;
           eexists; try reflexivity; (split; [reflexivity | discriminate]) | ]).
  contradiction.
Qed.

(** Credentials gate the network. A hosted adapter whose credential is
    missing throws a "not configured" error created in this module
    without making any request; with the credential it makes exactly one
    request, which carries text. *)
Theorem hosted_adapter_needs_credentials
    (k c p : string) (m : JsArg) (st : State) :
  In k HOSTED_KEYS ->
  (has_credentials k st = false ->
   exists msg, dispatch net k c p m st = (Thrown (JsError msg), enter k st))
  /\ (has_credentials k st = true ->
      exists q, sent (snd (dispatch net k c p m st)) = sent st ++ [q]
                /\ user_text q <> None).
Proof. apply hosted_gate. Qed.

(** The local adapter trusts only its own probe. Its behaviour does not
    depend on the flag stored in the registry: it probes on every call.
    When the probe is refused or answered with an empty body, it throws
    "Ollama not available" after that single request and leaves the flag
    cleared; otherwise it makes the generate request and leaves the flag
    set. *)
Theorem local_adapter_probes_every_call (c p : string) (m : JsArg) (st : State) :
  (forall b, dispatch net "ollama" c p m (set_ollama_available b st)
             = dispatch net "ollama" c p m st)
  /\ (local_service_up net (sent st) = false ->
      dispatch net "ollama" c p m st
      = (Thrown (JsError "Ollama not available. Please install and run Ollama locally."),
         set_ollama_available false (record_request PROBE (enter "ollama" st))))
  /\ (local_service_up net (sent st) = true ->
      exists q, sent (snd (dispatch net "ollama" c p m st)) = sent st ++ [PROBE; q]
                /\ user_text q <> None
                /\ is_available (snd (dispatch net "ollama" c p m st)) "ollama" = true).
Proof.
  split; [ | split].
  - intros b. cbn [dispatch String.eqb Ascii.eqb Bool.eqb].
    unfold analyzeWithOllama, bind, modify, gets, throw, ret.
    rewrite !probe_outcome.
    destruct st as [e [a x o g l h] ca co cg cx en se]. destruct l as [n av ms co'].
    reflexivity.
  - intros Hdown. cbn [dispatch String.eqb Ascii.eqb Bool.eqb].
    unfold analyzeWithOllama, bind, modify, gets, throw, ret.
    rewrite probe_outcome. cbn [sent enter]. rewrite Hdown. reflexivity.
  - intros Hup. cbn [dispatch String.eqb Ascii.eqb Bool.eqb].
    unfold analyzeWithOllama, bind, modify, gets, throw, ret.
    rewrite probe_outcome. cbn [sent enter]. rewrite Hup.
    cbn [set_ollama_available with_registry registry ollama available set_available negb].
    unfold await. cbn [sent record_request enter].
    eexists. split; [ | split].
    + destruct (net _ (OllamaGenerate _ _ _ _));
        cbn [snd sent record_request set_ollama_available with_registry enter];
        rewrite <- app_assoc; reflexivity.
    + discriminate.
    + destruct (net _ (OllamaGenerate _ _ _ _)); split_flags st; reflexivity.
Qed.

Lemma dispatch_returned_key
    (k c p : string) (m : JsArg) (st st' : State) (r : Result) :
  dispatch net k c p m st = (Returned r, st') ->
  provider r = k /\ In k KNOWN_KEYS.
Proof.
  intros D. revert D.
  split_key k;
    try match goal with
        | H : (k =? _) = true |- _ => apply String.eqb_eq in H; subst k
        end;
    run_adapter; intros D; settle_in D; inversion D; subst; clear D;
    (split; [reflexivity | cbn; tauto]).
Qed.

(** What a returned result carries. The [provider] field is the key of
    the adapter that built it. The four SDK adapters hand over the text
    and the usage record of the backend's reply to their request, as they
    are. The ollama and huggingface adapters always report a usage of
    zero total tokens, and the huggingface adapter never returns an empty
    or missing text. *)
Theorem adapter_result_shape
    (k c p : string) (m : JsArg) (st st' : State) (r : Result) :
  dispatch net k c p m st = (Returned r, st') ->
  provider r = k
  /\ In k KNOWN_KEYS
  /\ (In k SDK_KEYS ->
      exists q, sent st' = sent st ++ [q]
                /\ net (sent st) q = Fulfilled (content r) (usage r))
  /\ (k = "ollama" \/ k = "huggingface" -> usage r = UsageTotal 0)
  /\ (k = "huggingface" -> truthy (content r) = true).
Proof.
  intros D. revert D.
  split_key k;
    try match goal with
        | H : (k =? _) = true |- _ => apply String.eqb_eq in H; subst k
        end;
    run_adapter; intros D; settle_in D; inversion D; subst; clear D;
    cbn [provider content model sent record_request enter fst snd].
  all: split; [reflexivity | ].
  all: split; [cbn; tauto | ].
  all: split; [intros Hs | split; [intros Ho | intros Hh]].
  all: try (cbn in Hs; repeat (destruct Hs as [Hs | Hs]; [discriminate Hs | ]);
            contradiction).
  all: try (destruct Ho as [Ho | Ho]; discriminate Ho).
  all: try discriminate Hh.
  all: try reflexivity.
  all: try (eexists; split; [reflexivity | ]; cbn [sent enter];
            match goal with H : net _ _ = Fulfilled _ _ |- _ => exact H end).
  unfold js_or. destruct (truthy text) eqn:T; [exact T | reflexivity].
Qed.

End MoreAdapterFacts.

(** ** More on the call chain *)

Section MoreOrchestratorFacts.

Variable net : list Request -> Request -> Reply.

Lemma selected_key (pp : JsArg) (st : State) :
  truthy (select pp st) = true ->
  select pp st = JStr (js_to_string (select pp st))
  /\ js_to_string (select pp st) <> "".
Proof. apply truthy_is_string. Qed.

Lemma returned_by_last_adapter (fuel : nat) :
  forall c p pp pm st r st',
    analyzeWithAI net fuel c p pp pm st = Some (Returned r, st') ->
    In (provider r) KNOWN_KEYS
    /\ exists l, entered st' = entered st ++ l ++ [provider r].
Proof.
  induction fuel as [ | fuel IH]; intros c p pp pm st r st' H; [discriminate | ].
  rewrite analyzeWithAI_unfold in H. cbv zeta in H.
  destruct (negb (truthy (select (default_param JNull pp) st))); [discriminate | ].
  destruct (dispatch_entered_grows net
              (js_to_string (select (default_param JNull pp) st)) c p
              (default_param JNull pm) st) as [l0 Hl0].
  destruct (dispatch net _ c p _ st) as [[r1 | e] st1] eqn:D; cbn [snd] in Hl0.
  - inversion H; subst r1 st1. clear H.
    destruct (dispatch_returned_key net _ _ _ _ _ _ _ D) as [Hp Hk].
    split; [now rewrite Hp | ].
    exists []. cbn [app]. rewrite Hp.
    pose proof (known_key_entered net _ c p (default_param JNull pm) st Hk) as He.
    now rewrite D in He.
  - destruct (fallback_candidates _ st1) as [ | next rest]; [discriminate | ].
    apply IH in H. destruct H as [Hk [l Hl]]. split; [exact Hk | ].
    exists (l0 ++ l). now rewrite Hl, Hl0, <- !app_assoc.
Qed.


Lemma adjacent_distinct_cons (x : string) (l : list string) :
  (forall y, hd_error l = Some y -> x <> y) ->
  adjacent_distinct l ->
  adjacent_distinct (x :: l).
Proof.
  intros Hx Hl. destruct l as [ | y l]; cbn; [tauto | ].
  split; [now apply Hx | exact Hl].
Qed.

Lemma attempts_alternate (fuel : nat) :
  forall c p pp pm st o st',
    analyzeWithAI net fuel c p pp pm st = Some (o, st') ->
    exists l,
      entered st' = entered st ++ l
      /\ adjacent_distinct l
      /\ (forall k, select (default_param JNull pp) st = JStr k ->
                    In k KNOWN_KEYS -> hd_error l = Some k).
Proof.
  induction fuel as [ | fuel IH]; intros c p pp pm st o st' H; [discriminate | ].
  rewrite analyzeWithAI_unfold in H. cbv zeta in H.
  destruct (truthy (select (default_param JNull pp) st)) eqn:T; cbn [negb] in H.
  - destruct (selected_key _ _ T) as [Hsel Hne].
    set (key := js_to_string (select (default_param JNull pp) st)) in *.
    assert (Hdisp : exists l0, entered (snd (dispatch net key c p (default_param JNull pm) st))
                               = entered st ++ l0
                               /\ (l0 = [key] /\ In key KNOWN_KEYS
                                   \/ l0 = [] /\ ~ In key KNOWN_KEYS)).
    { destruct (in_dec string_dec key KNOWN_KEYS) as [Hin | Hout].
      - exists [key]. split; [now apply known_key_entered | now left].
      - exists []. rewrite unknown_key_dispatch by assumption. cbn [snd].
        split; [now rewrite app_nil_r | now right]. }
    destruct Hdisp as [l0 [Hl0 Hcase]].
    destruct (dispatch net key c p _ st) as [[r | e] st1] eqn:D; cbn [snd] in Hl0.
    + inversion H; subst. exists l0. split; [exact Hl0 | ].
      destruct Hcase as [[-> Hk] | [-> Hk]]; (split; [cbn; tauto | ]);
        intros k Hk1 Hk2; rewrite Hsel in Hk1; inversion Hk1; subst k;
        [reflexivity | contradiction].
    + destruct (fallback_candidates key st1) as [ | next rest] eqn:F.
      * inversion H; subst. exists l0. split; [exact Hl0 | ].
        destruct Hcase as [[-> Hk] | [-> Hk]]; (split; [cbn; tauto | ]);
          intros k Hk1 Hk2; rewrite Hsel in Hk1; inversion Hk1; subst k;
          [reflexivity | contradiction].
      * destruct (fallback_candidates_available _ _ _ _ F) as [Hav Hdiff].
        pose proof (available_keys_known _ _ Hav) as Hknown.
        apply IH in H. destruct H as [l [Hl [Hadj Hhd]]].
        specialize (Hhd (fst next)).
        cbn [default_param] in Hhd.
        rewrite select_truthy in Hhd
          by (apply truthy_key; now apply known_key_nonempty).
        specialize (Hhd eq_refl Hknown).
        exists (l0 ++ l). split; [now rewrite Hl, Hl0, <- app_assoc | ].
        destruct Hcase as [[-> Hk] | [-> Hk]]; cbn [app].
        -- split.
           ++ apply adjacent_distinct_cons; [ | exact Hadj].
              intros y Hy. rewrite Hhd in Hy. inversion Hy; subst y.
              intros Heq. apply Hdiff. now symmetry.
           ++ intros k Hk1 Hk2. rewrite Hsel in Hk1. inversion Hk1. reflexivity.
        -- split; [exact Hadj | ].
           intros k Hk1 Hk2. rewrite Hsel in Hk1. inversion Hk1; subst k.
           contradiction.
  - inversion H; subst. exists []. split; [now rewrite app_nil_r | ].
    split; [exact I | ].
    intros k Hk. rewrite Hk in T. intros Hin.
    apply known_key_nonempty, truthy_key in Hin. congruence.
Qed.

(** A call never tries a provider twice in a row: in the list of
    adapters it enters, neighbours differ. *)
Theorem no_immediate_retry
    (fuel : nat) (c p : string) (pp pm : JsArg) (st st' : State)
    (o : Outcome Result) :
  analyzeWithAI net fuel c p pp pm st = Some (o, st') ->
  exists l, entered st' = entered st ++ l /\ adjacent_distinct l.
Proof.
  intros H. apply attempts_alternate in H. destruct H as [l [Hl [Ha _]]].
  now exists l.
Qed.

Lemma dispatch_registry (k c p : string) (m : JsArg) (st : State) :
  registry (snd (dispatch net k c p m st)) = registry st
  \/ exists b, registry (snd (dispatch net k c p m st))
               = registry (set_ollama_available b st).
Proof.
  split_key k; run_adapter; settle; cbn [snd registry record_request enter];
    try (left; reflexivity); right; eexists; reflexivity.
Qed.

Lemma fallback_candidates_registry (k : string) (st st' : State) :
  registry st' = registry st ->
  fallback_candidates k st' = fallback_candidates k st.
Proof.
  unfold fallback_candidates, getAvailableProviders. now intros ->.
Qed.

Lemma sole_provider_candidates (k : string) (st : State) :
  available_keys st = [k] ->
  getBestProvider st = JStr k
  /\ fallback_candidates k st = []
  /\ forall b, fallback_candidates k (set_ollama_available b st) = []
               \/ k <> "ollama".
Proof.
  intros H. split; [ | split].
  - revert H. split_flags st; cbn; intros H; inversion H; reflexivity.
  - revert H. split_flags st; cbn; intros H; inversion H; reflexivity.
  - intros b. revert H. destruct b; split_flags st; cbn; intros H; inversion H;
      try (left; reflexivity); right; discriminate.
Qed.

Lemma hosted_dispatch_registry (k c p : string) (m : JsArg) (st : State) :
  k <> "ollama" ->
  registry (snd (dispatch net k c p m st)) = registry st.
Proof.
  intros Hk. split_key k;
    try match goal with
        | H : (k =? "ollama") = true |- _ => apply String.eqb_eq in H; contradiction
        end;
    run_adapter; settle; reflexivity.
Qed.

(** One provider, one attempt. When exactly one provider is available
    and the caller names none, the call enters that provider's adapter
    once and settles with that adapter's own outcome, result or error:
    there is nothing to fall back to. *)
Theorem sole_provider_single_attempt
    (fuel : nat) (c p k : string) (pp pm : JsArg) (st : State) :
  available_keys st = [k] ->
  truthy pp = false ->
  analyzeWithAI net (S fuel) c p pp pm st
  = Some (dispatch net k c p (default_param JNull pm) st)
  /\ entered (snd (dispatch net k c p (default_param JNull pm) st)) = entered st ++ [k].
Proof.
  intros Hone Hpp.
  destruct (sole_provider_candidates k st Hone) as [Hbest [Hnone Hflag]].
  assert (Hknown : In k KNOWN_KEYS).
  { apply (available_keys_known st). rewrite Hone. now left. }
  split; [ | now apply known_key_entered].
  rewrite (analyzeWithAI_on_key net fuel c p k).
  - destruct (dispatch net k c p (default_param JNull pm) st) as [[r | e] st1] eqn:D;
      [reflexivity | ].
    assert (Hc : fallback_candidates k st1 = []).
    { destruct (dispatch_registry k c p (default_param JNull pm) st) as [Hr | [b Hr]];
        rewrite D in Hr; cbn [snd] in Hr.
      - now rewrite (fallback_candidates_registry k st st1 Hr).
      - rewrite (fallback_candidates_registry k _ st1 Hr).
        destruct (Hflag b) as [Hb | Hb]; [exact Hb | ].
        pose proof (hosted_dispatch_registry k c p (default_param JNull pm) st Hb) as Hr'.
        rewrite D in Hr'. cbn [snd] in Hr'.
        rewrite (fallback_candidates_registry k st _ (eq_trans (eq_sym Hr) Hr')).
        exact Hnone. }
    now rewrite Hc.
  - rewrite select_falsy by now rewrite truthy_default_null. exact Hbest.
  - now apply known_key_nonempty.
Qed.

Lemma is_available_flags (st : State) :
  is_available st "anthropic" = available (anthropic (registry st))
  /\ is_available st "xai" = available (xai (registry st))
  /\ is_available st "openai" = available (openai (registry st))
  /\ is_available st "groq" = available (groq (registry st))
  /\ is_available st "huggingface" = available (huggingface (registry st)).
Proof. split_flags st; repeat split. Qed.



(** A call never changes the configuration. Whatever the chain of
    attempts, when the call settles the environment, the four clients and
    the availability flags of the five hosted providers are what they
    were; the only flag a call can flip is the local provider's. *)
Theorem call_touches_only_local_flag
    (fuel : nat) (c p : string) (pp pm : JsArg) (st st' : State)
    (o : Outcome Result) :
  analyzeWithAI net fuel c p pp pm st = Some (o, st') ->
  same_configuration st st'
  /\ forall k, In k HOSTED_KEYS -> is_available st' k = is_available st k.
Proof.
  intros H. apply analyzeWithAI_configuration in H. split; [exact H | ].
  destruct H as [_ [_ [_ [_ [_ [Fa [Fx [Fo [Fg Fh]]]]]]]]].
  destruct (is_available_flags st) as [A1 [A2 [A3 [A4 A5]]]].
  destruct (is_available_flags st') as [B1 [B2 [B3 [B4 B5]]]].
  intros k Hk. cbn in Hk.
  repeat (destruct Hk as [Hk | Hk]; [subst k; congruence | ]).
  contradiction.
Qed.

End MoreOrchestratorFacts.

(** ** The analyzer *)

Lemma prefix_cons (a : ascii) (p : string) (b : ascii) (s : string) :
  String.prefix (String a p) (String b s)
  = if Ascii.ascii_dec a b then String.prefix p s else false.
Proof. cbn. destruct (Ascii.ascii_dec a b); reflexivity. Qed.

Lemma prefix_longer (a : ascii) (p s : string) :
  String.prefix (String a p) s = true -> String.prefix (String a EmptyString) s = true.
Proof.
  destruct s as [ | b s]; [discriminate | ].
  rewrite !prefix_cons. destruct (Ascii.ascii_dec a b); [ | discriminate].
  intros _. now destruct s.
Qed.

Lemma remove_marker_no_backtick_head (b : ascii) (s : string) :
  b <> "`"%char ->
  remove_marker FENCE 0 (String b s) = String b (remove_marker FENCE 0 s).
Proof.
  intros Hb. cbn [remove_marker]. unfold FENCE at 1. rewrite prefix_cons.
  destruct (Ascii.ascii_dec "`" b) as [E | _]; [now subst b | reflexivity].
Qed.

Lemma one_backtick_kept (s : string) :
  String.prefix "`" s = false ->
  String.prefix "`" (remove_marker FENCE 0 s) = false.
Proof.
  destruct s as [ | b s]; [reflexivity | ].
  rewrite prefix_cons. destruct (Ascii.ascii_dec "`" b) as [E | N]; [now destruct s | ].
  intros _. rewrite remove_marker_no_backtick_head by congruence.
  rewrite prefix_cons. now destruct (Ascii.ascii_dec "`" b).
Qed.

Lemma two_backticks_kept (s : string) :
  String.prefix "``" s = false ->
  String.prefix "``" (remove_marker FENCE 0 s) = false.
Proof.
  destruct s as [ | b s]; [reflexivity | ].
  rewrite prefix_cons. destruct (Ascii.ascii_dec "`" b) as [E | N].
  - subst b. intros H.
    assert (M : String.prefix FENCE (String "`" s) = false).
    { unfold FENCE. rewrite prefix_cons. cbn [Ascii.ascii_dec].
      destruct (Ascii.ascii_dec "`" "`") as [_ | N]; [ | contradiction].
      destruct s as [ | c s]; [reflexivity | ].
      rewrite prefix_cons in *. destruct (Ascii.ascii_dec "`" c); [ | reflexivity].
      destruct s as [ | d s]; [discriminate H | ].
      rewrite prefix_cons in *. destruct (Ascii.ascii_dec "`" d); [discriminate H | reflexivity]. }
    cbn [remove_marker]. rewrite M. rewrite prefix_cons.
    destruct (Ascii.ascii_dec "`" "`") as [_ | N]; [ | contradiction].
    now apply one_backtick_kept.
  - intros _. rewrite remove_marker_no_backtick_head by congruence.
    rewrite prefix_cons. now destruct (Ascii.ascii_dec "`" b).
Qed.

Lemma remove_marker_leaves_no_fence (s : string) :
  forall skip,
    has_fence (remove_marker FENCE skip s) = false.
Proof.
  induction s as [ | ch rest IH]; intros skip; [reflexivity | ].
  destruct skip as [ | k]; cbn [remove_marker]; [ | apply IH].
  destruct (String.prefix FENCE (String ch rest)) eqn:M; [apply IH | ].
  cbn [has_fence]. rewrite IH, orb_false_r.
  unfold FENCE in *. rewrite prefix_cons in *.
  destruct (Ascii.ascii_dec "`" ch); [ | reflexivity].
  now apply two_backticks_kept.
Qed.

Lemma remove_marker_without_backtick (pat : string) (s : string) :
  String.prefix "`" pat = true ->
  (forall n, String.get n s <> Some "`"%char) ->
  remove_marker pat 0 s = s.
Proof.
  intros Hpat. induction s as [ | ch rest IH]; intros Hs; [reflexivity | ].
  cbn [remove_marker].
  assert (Hch : ch <> "`"%char).
  { intros ->. now apply (Hs 0). }
  assert (M : String.prefix pat (String ch rest) = false).
  { destruct pat as [ | a pat]; [discriminate Hpat | ].
    rewrite prefix_cons in *.
    destruct (Ascii.ascii_dec "`" a) as [<- | ]; [ | discriminate Hpat].
    destruct (Ascii.ascii_dec "`" ch); [congruence | reflexivity]. }
  rewrite M. f_equal. apply IH. intros n. apply (Hs (S n)).
Qed.

(** Cleaning the response. The text [analyzeRFP] hands to [JSON.parse]
    never contains three backticks in a row, whatever the response was,
    and a response without any backtick reaches the parser unchanged. *)
Theorem strip_code_fences_leaves_no_fence (text : string) :
  has_fence (strip_code_fences text) = false
  /\ ((forall n, String.get n text <> Some "`"%char) ->
      strip_code_fences text = text).
Proof.
  split.
  - apply remove_marker_leaves_no_fence.
  - intros H. unfold strip_code_fences.
    rewrite (remove_marker_without_backtick JSON_FENCE text eq_refl H).
    now apply remove_marker_without_backtick.
Qed.

Section AnalyzerFacts.

Variable net : list Request -> Request -> Reply.
Variable JSON_parse : string -> option Json.

Lemma dispatch_content (k c1 c2 p : string) (m : JsArg) (st : State) :
  k <> "ollama" \/ js_substring 0 3000 c1 = js_substring 0 3000 c2 ->
  dispatch net k c1 p m st = dispatch net k c2 p m st.
Proof.
  intros H. unfold dispatch.
  destruct (k =? "anthropic"); [reflexivity | ].
  destruct (k =? "xai"); [reflexivity | ].
  destruct (k =? "openai"); [reflexivity | ].
  destruct (k =? "groq"); [reflexivity | ].
  destruct (String.eqb_spec k "ollama") as [E | E]; [ | now destruct (k =? "huggingface")].
  destruct H as [H | H]; [contradiction | ].
  unfold analyzeWithOllama. now rewrite H.
Qed.

Lemma analyzeWithAI_content (fuel : nat) :
  forall c1 c2 p pp pm st,
    js_substring 0 3000 c1 = js_substring 0 3000 c2 ->
    analyzeWithAI net fuel c1 p pp pm st = analyzeWithAI net fuel c2 p pp pm st.
Proof.
  induction fuel as [ | fuel IH]; intros c1 c2 p pp pm st H; [reflexivity | ].
  rewrite !analyzeWithAI_unfold. cbv zeta.
  destruct (negb (truthy (select (default_param JNull pp) st))); [reflexivity | ].
  rewrite (dispatch_content _ c1 c2) by now right.
  destruct (dispatch net _ c2 p _ st) as [[r | e] st1]; [reflexivity | ].
  destruct (fallback_candidates _ st1); [reflexivity | ].
  now apply IH.
Qed.

(** The document argument of the orchestrator matters only through its
    first 3000 characters: two documents that agree on them give the same
    run, request for request. The hosted adapters do not look at the
    argument at all. *)
Theorem content_beyond_3000_is_ignored
    (fuel : nat) (c1 c2 p : string) (pp pm : JsArg) (st : State) :
  (js_substring 0 3000 c1 = js_substring 0 3000 c2 ->
   analyzeWithAI net fuel c1 p pp pm st = analyzeWithAI net fuel c2 p pp pm st)
  /\ (forall k, k <> "ollama" ->
                dispatch net k c1 p pm st = dispatch net k c2 p pm st).
Proof.
  split.
  - apply analyzeWithAI_content.
  - intros k Hk. apply dispatch_content. now left.
Qed.

(** Keywords are best effort. [extractKeywords] never throws. With no
    provider available it returns the empty list without touching the
    state. It returns a non-empty list only when the orchestrator
    returned a text that parses as a JSON array, and then the items of
    that array; a parsed array is always returned as it is. The outcome
    depends on the document through its first 3000 characters only. *)
Theorem extractKeywords_best_effort (fuel : nat) (doc : string) (st : State) :
  (getAvailableProviders st = [] ->
   extractKeywords net JSON_parse fuel doc st = Some (Returned [], st))
  /\ (forall e st', extractKeywords net JSON_parse fuel doc st <> Some (Thrown e, st'))
  /\ (forall kws st',
        kws <> [] ->
        extractKeywords net JSON_parse fuel doc st = Some (Returned kws, st') ->
        exists r,
          analyzeWithAI net fuel doc (keywordPrompt doc) JUndefined JUndefined st
          = Some (Returned r, st')
          /\ JSON_parse (js_to_string (content r)) = Some (JsonArray kws))
  /\ (forall r kws st',
        getAvailableProviders st <> [] ->
        analyzeWithAI net fuel doc (keywordPrompt doc) JUndefined JUndefined st
        = Some (Returned r, st') ->
        JSON_parse (js_to_string (content r)) = Some (JsonArray kws) ->
        extractKeywords net JSON_parse fuel doc st = Some (Returned kws, st'))
  /\ (forall doc',
        js_substring 0 3000 doc' = js_substring 0 3000 doc ->
        extractKeywords net JSON_parse fuel doc' st
        = extractKeywords net JSON_parse fuel doc st).
Proof.
  unfold extractKeywords.
  split; [ | split; [ | split; [ | split]]].
  - now intros ->.
  - intros e st'.
    destruct (Nat.eqb _ 0); [discriminate | ].
    destruct (analyzeWithAI net fuel doc _ _ _ st) as [[[r | e1] st1] | ];
      try discriminate.
    destruct (JSON_parse _) as [[ | | | | | ] | ]; discriminate.
  - intros kws st' Hne.
    destruct (Nat.eqb _ 0); [intros H; inversion H; congruence | ].
    destruct (analyzeWithAI net fuel doc _ _ _ st) as [[[r | e1] st1] | ];
      try discriminate; [ | intros H; inversion H; congruence].
    destruct (JSON_parse _) as [[ | | | | items | ] | ] eqn:P;
      intros H; inversion H; subst; try congruence.
    exists r. now split.
  - intros r kws st' Hav Hrun Hparse.
    destruct (getAvailableProviders st); [contradiction | ].
    cbn [List.length Nat.eqb]. now rewrite Hrun, Hparse.
  - intros doc' Hsame. unfold keywordPrompt. rewrite Hsame.
    now rewrite (analyzeWithAI_content fuel doc' doc _ _ _ _ Hsame).
Qed.

(** What [analyzeRFP] makes of a call. An error of the guard or of the
    orchestrator is rethrown as it is. Once the orchestrator has returned
    a response, the metadata names the provider and model that served,
    the usage reported and the length of the document. A text that is
    missing or does not parse gives the unstructured analysis carrying
    the raw text; a text that parses to an object or an array gives that
    value; a text that parses to null, a boolean, a number or a string
    makes the function throw although the call succeeded. *)
Theorem analyzeRFP_outcomes
    (fuel : nat) (template : string -> string) (now_iso : string) (now_ms : nat)
    (doc : string) (pp pm : JsArg) (st : State) :
  (forall e st',
      analyzeRFP_invoke net fuel template doc pp pm st = Some (Thrown e, st') ->
      analyzeRFP net JSON_parse fuel template now_iso now_ms doc pp pm st
      = Some (AnalysisThrown e, st'))
  /\ (forall r st',
        analyzeRFP_invoke net fuel template doc pp pm st = Some (Returned r, st') ->
        let metadata :=
          mkAnalysisMetadata now_iso (provider r) (model r) (String.length doc)
                             (usage r) now_ms in
        In (provider r) KNOWN_KEYS
        /\ ((forall text, content r = JStr text ->
                          JSON_parse (strip_code_fences text) = None) ->
            analyzeRFP net JSON_parse fuel template now_iso now_ms doc pp pm st
            = Some (AnalysisReturned (Unstructured (content r)) metadata, st'))
        /\ (forall text value,
              content r = JStr text ->
              JSON_parse (strip_code_fences text) = Some value ->
              analyzeRFP net JSON_parse fuel template now_iso now_ms doc pp pm st
              = Some (if accepts_properties value
                      then AnalysisReturned (Parsed value) metadata
                      else AnalysisTypeError value, st'))).
Proof.
  split.
  - intros e st' H. unfold analyzeRFP. now rewrite H.
  - intros r st' H metadata. split; [ | split].
    + unfold analyzeRFP_invoke in H.
      destruct (Nat.eqb _ 0); [discriminate | ].
      now apply (returned_by_last_adapter net) in H.
    + intros Hbad. unfold analyzeRFP. rewrite H. unfold structure_response.
      destruct (content r) as [ | | text] eqn:C; try reflexivity.
      now rewrite (Hbad text eq_refl).
    + intros text value C P. unfold analyzeRFP. rewrite H. unfold structure_response.
      rewrite C, P. now destruct (accepts_properties value).
Qed.

End AnalyzerFacts.

(** ** The server *)

Lemma append_length (a b : string) :
  String.length (a ++ b) = String.length a + String.length b.
Proof. induction a as [ | ch a IH]; cbn; [reflexivity | now rewrite IH]. Qed.

Section ServerFacts.

Variable net : list Request -> Request -> Reply.
Variable extname : string -> string.
Variable toLowerCase : string -> string.
Variable run_parser : Parser -> string -> Outcome string.
Variable saveProcessedContent : string -> ProcessedData -> option Error.
Variable remove : string -> option Error.
Variable getProcessedContent : string -> Outcome (option string).

(** Filter and parsers agree. Every upload the filter accepts has a
    parser in [processFile], so its stored content is never the
    "Unsupported file type" text; an upload it rejects fails with the
    "Invalid file type" error. *)
Theorem accepted_upload_has_parser (file : UploadedFile) :
  (fileFilter extname toLowerCase file = Returned true ->
   exists parser,
     parser_for (toLowerCase (extname (originalname file))) = Some parser
     /\ parse_upload extname toLowerCase run_parser file
        = match run_parser parser (file_path file) with
          | Returned text => text
          | Thrown e => parse_failure_text file (message_of e)
          end)
  /\ (fileFilter extname toLowerCase file <> Returned true ->
      fileFilter extname toLowerCase file
      = Thrown (JsError
          "Invalid file type. Only PDF, Word, ODF, Excel, and TXT files are allowed.")).
Proof.
  unfold fileFilter, parse_upload.
  set (ext := toLowerCase (extname (originalname file))).
  destruct (existsb (String.eqb ext) ALLOWED_TYPES) eqn:E; split;
    try discriminate; try contradiction; try reflexivity.
  intros _. apply existsb_exists in E. destruct E as [x [Hin Heq]].
  apply String.eqb_eq in Heq. subst x. cbn in Hin.
  repeat (destruct Hin as [Hin | Hin];
          [rewrite <- Hin; eexists; split; reflexivity | ]).
  contradiction.
Qed.

(** Parsing never fails an upload. [processFile] throws only when saving
    the record or removing the uploaded file throws. A parser that
    throws, or an extension with no parser, puts an error text in the
    place of the content, and the upload is stored and reported like any
    other. The record is saved before the uploaded file is removed, and
    the preview is the first 500 characters of the stored content
    followed by three dots, also when nothing was cut. *)
Theorem processFile_stores_parse_failures
    (file : UploadedFile) (uuid now_iso : string) :
  let run := processFile extname toLowerCase run_parser saveProcessedContent remove
               file uuid now_iso in
  let ext := toLowerCase (extname (originalname file)) in
  let stored := parse_upload extname toLowerCase run_parser file in
  let data := mkProcessedData (originalname file) stored (file_size file)
                              (mimetype file) now_iso ext in
  (forall e, fst run = Thrown e ->
             saveProcessedContent uuid data = Some e
             \/ (saveProcessedContent uuid data = None
                 /\ remove (file_path file) = Some e))
  /\ (saveProcessedContent uuid data = None ->
      remove (file_path file) = None ->
      run = (Returned (mkProcessResult uuid (originalname file) (file_size file)
                                       (js_substring 0 500 stored ++ "...")),
             [SavedProcessed uuid data; RemovedFile (file_path file)]))
  /\ (parser_for ext = None ->
      stored = parse_failure_text file ("Unsupported file type: " ++ ext))
  /\ (forall parser e,
        parser_for ext = Some parser ->
        run_parser parser (file_path file) = Thrown e ->
        stored = parse_failure_text file (message_of e))
  /\ String.length (js_substring 0 500 stored ++ "...")
     = Nat.min 500 (String.length stored) + 3.
Proof.
  cbv zeta. unfold processFile.
  split; [ | split; [ | split; [ | split]]].
  - intros e.
    destruct (saveProcessedContent uuid _) as [e1 | ] eqn:S; cbn [fst].
    + intros H. inversion H. now left.
    + destruct (remove (file_path file)) as [e2 | ] eqn:R; cbn [fst].
      * intros H. inversion H. right. now split.
      * discriminate.
  - intros S R. now rewrite S, R.
  - intros P. unfold parse_upload. now rewrite P.
  - intros parser e P R. unfold parse_upload. now rewrite P, R.
  - rewrite append_length, js_substring_0_length. reflexivity.
Qed.

(** The replies of the assistant route. A request without a content id
    or without a question is answered 400, and an unknown document 404,
    both without any adapter being entered or any request being made.
    Once the document is found, the reply follows the orchestrator: an
    error becomes a 500 carrying that error's message, a result becomes
    the answer, which names the provider that served, a key of the
    registry. *)
Theorem ai_assistant_replies
    (fuel : nat) (now_iso : string)
    (contentId question requested_provider requested_model : JsArg) (st : State) :
  let reply := ai_assistant net getProcessedContent fuel now_iso contentId question
                 requested_provider requested_model st in
  (truthy contentId = false \/ truthy question = false ->
   reply = Some (ReplyError 400 "Content ID and question are required", st))
  /\ (truthy contentId = true -> truthy question = true ->
      getProcessedContent (js_to_string contentId) = Returned None ->
      reply = Some (ReplyError 404 "Document not found", st))
  /\ (forall doc,
        truthy contentId = true -> truthy question = true ->
        getProcessedContent (js_to_string contentId) = Returned (Some doc) ->
        let call := analyzeWithAI net fuel doc
                      (assistantPrompt doc (js_to_string question))
                      requested_provider requested_model st in
        (forall e st', call = Some (Thrown e, st') ->
                       reply = Some (ReplyError 500 (message_of e), st'))
        /\ (forall r st', call = Some (Returned r, st') ->
                          reply = Some (ReplyAnswer (content r) (provider r)
                                                    (model r) now_iso, st')
                          /\ In (provider r) KNOWN_KEYS)).
Proof.
  cbv zeta. unfold ai_assistant. split; [ | split].
  - intros [H | H]; rewrite H; cbn; [reflexivity | ].
    now rewrite orb_true_r.
  - intros Hc Hq Hdoc. now rewrite Hc, Hq, Hdoc.
  - intros doc Hc Hq Hdoc. rewrite Hc, Hq, Hdoc. cbn [negb orb]. split.
    + intros e st' H. now rewrite H.
    + intros r st' H. rewrite H. split; [reflexivity | ].
      now apply (returned_by_last_adapter net) in H.
Qed.

End ServerFacts.

(** ** The analysis without AI *)

Lemma string_or_nonempty (a : option string) (b : string) :
  b <> "" -> string_or a b <> "".
Proof.
  intros Hb. unfold string_or. destruct a as [s | ]; [ | exact Hb].
  destruct (String.eqb_spec s ""); assumption.
Qed.

Lemma string_or_source (a : option string) (b : string) :
  a = Some (string_or a b) \/ string_or a b = b.
Proof.
  unfold string_or. destruct a as [s | ]; [ | now right].
  destruct (s =? ""); [now right | now left].
Qed.

Lemma nonempty_length (s : string) : s <> "" <-> 0 < String.length s.
Proof.
  destruct s; cbn; split; intros H; try lia; try congruence.
Qed.

Lemma filter_nonempty {A} (f : A -> bool) (l : list A) :
  Nat.ltb 0 (List.length (filter f l)) = true <-> exists x, In x l /\ f x = true.
Proof.
  rewrite Nat.ltb_lt. split.
  - destruct (filter f l) as [ | x rest] eqn:F; cbn; [lia | ].
    intros _. exists x. apply filter_In. rewrite F. now left.
  - intros [x Hx]. apply filter_In in Hx.
    destruct (filter f l); [contradiction | cbn; lia].
Qed.

Section MockAnalysisFacts.

Variable trim : string -> string.
Variable toLowerCase : string -> string.
Variable mentions_duration : string -> bool.
Variable count_words : string -> nat.

(** Bounds of the mock analysis. The title is never empty and has at
    most 80 characters; it is cut from a non-blank line of the document
    or from the default title. There are at most three key deadlines of
    at most 100 characters each. The preview is the whole document when
    it has at most 500 characters, and its first 500 characters followed
    by three dots otherwise. Budget information is reported exactly when
    some non-blank line mentions budget, cost, price or a dollar sign. *)
Theorem createMockAnalysis_bounds (now_iso doc : string) :
  let a := createMockAnalysis trim toLowerCase mentions_duration count_words
             now_iso doc in
  let lines := content_lines trim doc in
  mock_title a <> ""
  /\ String.length (mock_title a) <= 80
  /\ (exists t, mock_title a = js_substring 0 80 t
                /\ (In t lines \/ t = "RFP Analysis"))
  /\ List.length (mock_keyDeadlines a) <= 3
  /\ (forall d, In d (mock_keyDeadlines a) -> String.length d <= 100)
  /\ (String.length doc <= 500 -> mock_documentPreview a = doc)
  /\ (500 < String.length doc ->
      mock_documentPreview a = (js_substring 0 500 doc ++ "...")%string
      /\ String.length (mock_documentPreview a) = 503)
  /\ (mock_budget a = "Budget information found in document"
      <-> exists line, In line lines /\ mentions_budget toLowerCase line = true).
Proof.
  cbv zeta. unfold createMockAnalysis.
  cbn [mock_title mock_keyDeadlines mock_documentPreview mock_budget].
  set (lines := content_lines trim doc).
  set (t := string_or (find (title_candidate toLowerCase) lines)
                      (string_or (hd_error lines) "RFP Analysis")).
  assert (Ht : t <> "").
  { apply string_or_nonempty, string_or_nonempty. discriminate. }
  split; [ | split; [ | split; [ | split; [ | split; [ | split; [ | split]]]]]].
  - apply nonempty_length. rewrite js_substring_0_length.
    apply nonempty_length in Ht. lia.
  - rewrite js_substring_0_length. lia.
  - exists t. split; [reflexivity | ].
    unfold t.
    destruct (string_or_source (find (title_candidate toLowerCase) lines)
                (string_or (hd_error lines) "RFP Analysis")) as [H | H].
    + left. apply find_some in H. tauto.
    + rewrite H.
      destruct (string_or_source (hd_error lines) "RFP Analysis") as [H' | H'].
      * left. destruct lines as [ | l0 rest]; [discriminate H' | ].
        cbn in H'. inversion H' as [E]. rewrite <- E. now left.
      * now right.
  - rewrite length_map, length_firstn. lia.
  - intros d Hd. apply in_map_iff in Hd. destruct Hd as [line [<- _]].
    rewrite js_substring_0_length. lia.
  - intros Hshort.
    assert (E : Nat.ltb 500 (String.length doc) = false) by (apply Nat.ltb_ge; lia).
    rewrite E, js_substring_0_short by lia.
    clear. induction doc as [ | ch s IH]; cbn; [reflexivity | now rewrite IH].
  - intros Hlong.
    assert (E : Nat.ltb 500 (String.length doc) = true) by (apply Nat.ltb_lt; lia).
    rewrite E. split; [reflexivity | ].
    rewrite append_length, js_substring_0_length.
    change (String.length "...") with 3. lia.
  - rewrite <- filter_nonempty.
    destruct (Nat.ltb 0 (List.length (filter (mentions_budget toLowerCase) lines)));
      split; intros H; try reflexivity; discriminate H.
Qed.

End MockAnalysisFacts.

(** ** Storage *)

Lemma object_get_set_same (k : string) (v : Json) (fields : list (string * Json)) :
  FileManager.object_get k (FileManager.object_set k v fields) = Some v.
Proof.
  induction fields as [ | [k' v'] rest IH]; cbn.
  - now rewrite String.eqb_refl.
  - destruct (k' =? k) eqn:E; cbn; rewrite E; [reflexivity | exact IH].
Qed.

Lemma object_get_set_other (k k' : string) (v : Json) (fields : list (string * Json)) :
  k <> k' ->
  FileManager.object_get k (FileManager.object_set k' v fields)
  = FileManager.object_get k fields.
Proof.
  intros Hne. induction fields as [ | [k1 v1] rest IH]; cbn.
  - destruct (String.eqb_spec k' k); [congruence | reflexivity].
  - destruct (String.eqb_spec k1 k') as [E | E]; cbn.
    + subst k1. destruct (String.eqb_spec k' k); [congruence | reflexivity].
    + destruct (k1 =? k); [reflexivity | exact IH].
Qed.

Lemma object_get_absent (k : string) (fields : list (string * Json)) :
  ~ In k (map fst fields) -> FileManager.object_get k fields = None.
Proof.
  induction fields as [ | [k' v'] rest IH]; cbn; [reflexivity | ].
  intros H. destruct (String.eqb_spec k' k) as [E | E]; [tauto | ].
  apply IH. tauto.
Qed.

Lemma object_get_spread (k : string) (data : list (string * Json)) :
  NoDup (map fst data) ->
  forall target,
    FileManager.object_get k (FileManager.spread data target)
    = match FileManager.object_get k data with
      | Some v => Some v
      | None => FileManager.object_get k target
      end.
Proof.
  unfold FileManager.spread.
  induction data as [ | [k1 v1] rest IH]; intros Hnd target; [reflexivity | ].
  cbn [fold_left fst snd FileManager.object_get].
  cbn [map fst] in Hnd. inversion Hnd as [ | x l Hnotin Hrest]; subst.
  rewrite (IH Hrest).
  destruct (String.eqb_spec k1 k) as [E | E].
  - subst k1. rewrite (object_get_absent k rest Hnotin).
    apply object_get_set_same.
  - destruct (FileManager.object_get k rest); [reflexivity | ].
    apply object_get_set_other. congruence.
Qed.

Section StorageFacts.

Variable path_join : string -> string -> string.
Variable PROCESSED_DIR : string.
Variable ANALYSIS_DIR : string.
Variable CACHE_DIR : string.
Variable date_of : option Json -> option Z.
Variable toISOString : Z -> option string.

(** Saving a document and reading it back. The record read back under
    the same id carries the time of the save under [savedAt] and every
    property of the data saved; its [id] is the content id unless the
    data has an [id] of its own, which then wins. Reading under an id
    with another path gives what it gave before. *)
Theorem processed_content_round_trip
    (contentId : string) (data : list (string * Json)) (now_iso : string)
    (fs : FileManager.Fs) :
  NoDup (map fst data) ->
  let saved := FileManager.saveProcessedContent path_join PROCESSED_DIR
                 contentId data now_iso fs in
  fst saved = contentId
  /\ (exists record,
        FileManager.getProcessedContent path_join PROCESSED_DIR contentId (snd saved)
        = FileManager.Loaded (JsonObject record)
        /\ FileManager.object_get "savedAt" record = Some (JsonString now_iso)
        /\ forall k,
             k <> "savedAt" ->
             FileManager.object_get k record
             = match FileManager.object_get k data with
               | Some v => Some v
               | None => if k =? "id" then Some (JsonString contentId) else None
               end)
  /\ (forall other,
        FileManager.processed_path path_join PROCESSED_DIR other
        <> FileManager.processed_path path_join PROCESSED_DIR contentId ->
        FileManager.getProcessedContent path_join PROCESSED_DIR other (snd saved)
        = FileManager.getProcessedContent path_join PROCESSED_DIR other fs).
Proof.
  intros Hnd. cbv zeta. unfold FileManager.saveProcessedContent. cbn [fst snd].
  split; [reflexivity | split].
  - exists (FileManager.processed_record contentId data now_iso).
    unfold FileManager.getProcessedContent, FileManager.writeJSON.
    rewrite String.eqb_refl. split; [reflexivity | ].
    unfold FileManager.processed_record. split.
    + apply object_get_set_same.
    + intros k Hk. rewrite object_get_set_other by assumption.
      rewrite (object_get_spread k data Hnd). cbn [FileManager.object_get].
      destruct (FileManager.object_get k data); [reflexivity | ].
      now rewrite String.eqb_sym.
  - intros other Hpath.
    unfold FileManager.getProcessedContent, FileManager.writeJSON.
    destruct (String.eqb_spec (FileManager.processed_path path_join PROCESSED_DIR other)
                (FileManager.processed_path path_join PROCESSED_DIR contentId));
      [contradiction | reflexivity].
Qed.

(** Saving an analysis and reading it back gives the analysis, whatever
    value it is; reading under an id with another path gives what it
    gave before. *)
Theorem analysis_round_trip
    (contentId : string) (analysis : Json) (now_iso : string) (fs : FileManager.Fs) :
  let saved := FileManager.saveAnalysis path_join ANALYSIS_DIR contentId analysis
                 now_iso fs in
  FileManager.getAnalysis path_join ANALYSIS_DIR contentId (snd saved)
  = FileManager.Loaded (Some analysis)
  /\ (forall other,
        FileManager.analysis_path path_join ANALYSIS_DIR other
        <> FileManager.analysis_path path_join ANALYSIS_DIR contentId ->
        FileManager.getAnalysis path_join ANALYSIS_DIR other (snd saved)
        = FileManager.getAnalysis path_join ANALYSIS_DIR other fs).
Proof.
  cbv zeta. unfold FileManager.saveAnalysis. cbn [snd]. split.
  - unfold FileManager.getAnalysis, FileManager.writeJSON.
    rewrite String.eqb_refl. reflexivity.
  - intros other Hpath. unfold FileManager.getAnalysis, FileManager.writeJSON.
    destruct (String.eqb_spec (FileManager.analysis_path path_join ANALYSIS_DIR other)
                (FileManager.analysis_path path_join ANALYSIS_DIR contentId));
      [contradiction | reflexivity].
Qed.

(** Missing and damaged files. An id with no file reads as null, for a
    document, an analysis and a cache entry alike. A file that cannot be
    read makes the document and analysis getters throw the read error,
    while the cache getter returns null and leaves the file where it
    is. A cache file holding the value null also reads as null. *)
Theorem missing_and_unreadable_files
    (id : string) (now_ms : Z) (fs : FileManager.Fs) :
  (fs (FileManager.processed_path path_join PROCESSED_DIR id) = None ->
   FileManager.getProcessedContent path_join PROCESSED_DIR id fs
   = FileManager.Loaded JsonNull)
  /\ (fs (FileManager.analysis_path path_join ANALYSIS_DIR id) = None ->
      FileManager.getAnalysis path_join ANALYSIS_DIR id fs
      = FileManager.Loaded (Some JsonNull))
  /\ (forall message,
        fs (FileManager.processed_path path_join PROCESSED_DIR id)
        = Some (FileManager.Unreadable message) ->
        FileManager.getProcessedContent path_join PROCESSED_DIR id fs
        = FileManager.Failed (FileManager.ReadFailure message))
  /\ (forall message,
        fs (FileManager.analysis_path path_join ANALYSIS_DIR id)
        = Some (FileManager.Unreadable message) ->
        FileManager.getAnalysis path_join ANALYSIS_DIR id fs
        = FileManager.Failed (FileManager.ReadFailure message))
  /\ (fs (FileManager.cache_path path_join CACHE_DIR id) = None
      \/ (exists message, fs (FileManager.cache_path path_join CACHE_DIR id)
                          = Some (FileManager.Unreadable message))
      \/ fs (FileManager.cache_path path_join CACHE_DIR id)
         = Some (FileManager.JsonFile JsonNull) ->
      FileManager.getFromCache path_join CACHE_DIR date_of id now_ms fs
      = (Some JsonNull, fs)).
Proof.
  unfold FileManager.getProcessedContent, FileManager.getAnalysis,
    FileManager.getFromCache.
  split; [ | split; [ | split; [ | split]]].
  - now intros ->.
  - now intros ->.
  - intros message H. now rewrite H.
  - intros message H. now rewrite H.
  - intros [H | [[message H] | H]]; now rewrite H.
Qed.

(** The life of a cache entry. When the expiry time can be written as a
    date and read back, [saveToCache] succeeds; until that time
    [getFromCache] returns the data and leaves the file; after it, it
    returns null and removes the file, so that the entry stays gone
    whatever the clock says later. *)
Theorem cache_entry_expires
    (key : string) (data : Json) (ttlHours : Z) (now_iso expiresAt : string)
    (now_ms : Z) (fs : FileManager.Fs) :
  let expiry := (now_ms + ttlHours * 60 * 60 * 1000)%Z in
  toISOString expiry = Some expiresAt ->
  date_of (Some (JsonString expiresAt)) = Some expiry ->
  let saved := FileManager.saveToCache path_join CACHE_DIR toISOString key data
                 ttlHours now_iso now_ms fs in
  let gone := FileManager.remove (FileManager.cache_path path_join CACHE_DIR key)
                (snd saved) in
  fst saved = true
  /\ (forall t, (t <= expiry)%Z ->
                FileManager.getFromCache path_join CACHE_DIR date_of key t (snd saved)
                = (Some data, snd saved))
  /\ (forall t, (expiry < t)%Z ->
                FileManager.getFromCache path_join CACHE_DIR date_of key t (snd saved)
                = (Some JsonNull, gone))
  /\ (forall t, FileManager.getFromCache path_join CACHE_DIR date_of key t gone
                = (Some JsonNull, gone)).
Proof.
  cbv zeta. intros Hiso Hdate. unfold FileManager.saveToCache. rewrite Hiso.
  cbn [fst snd]. split; [reflexivity | split; [ | split]].
  - intros t Ht. unfold FileManager.getFromCache, FileManager.writeJSON at 1.
    rewrite String.eqb_refl.
    cbn [FileManager.property FileManager.object_get String.eqb Ascii.eqb Bool.eqb].
    rewrite Hdate.
    assert (E : (now_ms + ttlHours * 60 * 60 * 1000 <? t)%Z = false)
      by (apply Z.ltb_ge; lia).
    now rewrite E.
  - intros t Ht. unfold FileManager.getFromCache, FileManager.writeJSON at 1.
    rewrite String.eqb_refl.
    cbn [FileManager.property FileManager.object_get String.eqb Ascii.eqb Bool.eqb].
    rewrite Hdate.
    assert (E : (now_ms + ttlHours * 60 * 60 * 1000 <? t)%Z = true)
      by (apply Z.ltb_lt; lia).
    now rewrite E.
  - intros t. unfold FileManager.getFromCache, FileManager.remove at 1.
    now rewrite String.eqb_refl.
Qed.

End StorageFacts.

Import Fixtures.

(** ** The added statements at concrete inputs *)

Lemma hosted_adapter_needs_credentials_witness :
  In "groq" HOSTED_KEYS
  /\ has_credentials "groq" (boot no_keys) = false
  /\ exists msg,
       dispatch all_up "groq" "doc" "prompt" JUndefined (boot no_keys)
       = (Thrown (JsError msg), enter "groq" (boot no_keys)).
Proof.
  assert (H1 : In "groq" HOSTED_KEYS) by (cbn; tauto).
  assert (H2 : has_credentials "groq" (boot no_keys) = false) by reflexivity.
  split; [exact H1 | split; [exact H2 | ]].
  exact (proj1 (hosted_adapter_needs_credentials all_up "groq" "doc" "prompt"
                  JUndefined (boot no_keys) H1) H2).
Defined.

Lemma local_adapter_probes_every_call_witness :
  local_service_up all_up (sent (boot no_keys)) = true
  /\ exists q,
       sent (snd (dispatch all_up "ollama" "doc" "prompt" JUndefined (boot no_keys)))
       = sent (boot no_keys) ++ [PROBE; q]
       /\ user_text q <> None
       /\ is_available (snd (dispatch all_up "ollama" "doc" "prompt" JUndefined
                               (boot no_keys))) "ollama" = true.
Proof.
  assert (H1 : local_service_up all_up (sent (boot no_keys)) = true) by reflexivity.
  split; [exact H1 | ].
  exact (proj2 (proj2 (local_adapter_probes_every_call all_up "doc" "prompt" JUndefined
                         (boot no_keys))) H1).
Defined.

Lemma adapter_result_shape_witness :
  dispatch all_up "openai" "doc" "prompt" JUndefined (boot openai_only)
  = (Returned (mkResult (JStr "{}") "openai" (JStr "gpt-3.5-turbo") (UsageTokens 10 20)),
     snd (dispatch all_up "openai" "doc" "prompt" JUndefined (boot openai_only)))
  /\ In "openai" SDK_KEYS
  /\ exists q,
       sent (snd (dispatch all_up "openai" "doc" "prompt" JUndefined (boot openai_only)))
       = sent (boot openai_only) ++ [q]
       /\ all_up (sent (boot openai_only)) q = Fulfilled (JStr "{}") (UsageTokens 10 20).
Proof.
  assert (H1 : dispatch all_up "openai" "doc" "prompt" JUndefined (boot openai_only)
               = (Returned (mkResult (JStr "{}") "openai" (JStr "gpt-3.5-turbo")
                                     (UsageTokens 10 20)),
                  snd (dispatch all_up "openai" "doc" "prompt" JUndefined
                         (boot openai_only)))) by reflexivity.
  assert (H2 : In "openai" SDK_KEYS) by (cbn; tauto).
  split; [exact H1 | split; [exact H2 | ]].
  exact (proj1 (proj2 (proj2 (adapter_result_shape all_up _ _ _ _ _ _ _ H1))) H2).
Defined.

(** The run used below: anthropic refuses, openai answers. *)
Lemma refused_then_served :
  analyzeWithAI (up_after 1) 2 "doc" "prompt" JUndefined JUndefined
    (boot anthropic_openai_groq)
  = Some (Returned (mkResult (JStr "{}") "openai" (JStr "gpt-3.5-turbo")
                             (UsageTokens 10 20)),
          snd (dispatch (up_after 1) "openai" "doc" "prompt" JNull
                 (snd (dispatch (up_after 1) "anthropic" "doc" "prompt" JNull
                         (boot anthropic_openai_groq))))).
Proof. vm_compute. reflexivity. Defined.


Lemma no_immediate_retry_witness :
  analyzeWithAI (up_after 1) 2 "doc" "prompt" JUndefined JUndefined
    (boot anthropic_openai_groq)
  = Some (Returned (mkResult (JStr "{}") "openai" (JStr "gpt-3.5-turbo")
                             (UsageTokens 10 20)),
          snd (dispatch (up_after 1) "openai" "doc" "prompt" JNull
                 (snd (dispatch (up_after 1) "anthropic" "doc" "prompt" JNull
                         (boot anthropic_openai_groq)))))
  /\ exists l,
       entered (snd (dispatch (up_after 1) "openai" "doc" "prompt" JNull
                       (snd (dispatch (up_after 1) "anthropic" "doc" "prompt" JNull
                               (boot anthropic_openai_groq)))))
       = entered (boot anthropic_openai_groq) ++ l
       /\ adjacent_distinct l.
Proof.
  split; [exact refused_then_served | ].
  exact (no_immediate_retry (up_after 1) 2 "doc" "prompt" JUndefined JUndefined _ _ _
           refused_then_served).
Defined.

Lemma call_touches_only_local_flag_witness :
  analyzeWithAI (up_after 1) 2 "doc" "prompt" JUndefined JUndefined
    (boot anthropic_openai_groq)
  = Some (Returned (mkResult (JStr "{}") "openai" (JStr "gpt-3.5-turbo")
                             (UsageTokens 10 20)),
          snd (dispatch (up_after 1) "openai" "doc" "prompt" JNull
                 (snd (dispatch (up_after 1) "anthropic" "doc" "prompt" JNull
                         (boot anthropic_openai_groq)))))
  /\ same_configuration (boot anthropic_openai_groq)
       (snd (dispatch (up_after 1) "openai" "doc" "prompt" JNull
               (snd (dispatch (up_after 1) "anthropic" "doc" "prompt" JNull
                       (boot anthropic_openai_groq))))).
Proof.
  split; [exact refused_then_served | ].
  exact (proj1 (call_touches_only_local_flag (up_after 1) 2 "doc" "prompt" JUndefined
                  JUndefined _ _ _ refused_then_served)).
Defined.

Lemma sole_provider_single_attempt_witness :
  available_keys (boot openai_only) = ["openai"]
  /\ truthy JUndefined = false
  /\ analyzeWithAI all_down 1 "doc" "prompt" JUndefined JUndefined (boot openai_only)
     = Some (dispatch all_down "openai" "doc" "prompt" (default_param JNull JUndefined)
               (boot openai_only)).
Proof.
  assert (H1 : available_keys (boot openai_only) = ["openai"]) by reflexivity.
  assert (H2 : truthy JUndefined = false) by reflexivity.
  split; [exact H1 | split; [exact H2 | ]].
  exact (proj1 (sole_provider_single_attempt all_down 0 "doc" "prompt" "openai"
                  JUndefined JUndefined (boot openai_only) H1 H2)).
Defined.


Lemma default_model_is_first_entry_witness :
  (In "groq" ["xai"; "openai"; "groq"; "ollama"]
   \/ ("groq" = "anthropic" /\ JUndefined = JUndefined))
  /\ forall r st',
       dispatch all_up "groq" "doc" "prompt" JUndefined (boot openai_and_groq)
       = (Returned r, st') ->
       Some (model r) = first_model "groq" (providers openai_and_groq).
Proof.
  assert (H1 : In "groq" ["xai"; "openai"; "groq"; "ollama"]
               \/ ("groq" = "anthropic" /\ JUndefined = JUndefined))
    by (left; cbn; tauto).
  split; [exact H1 | ].
  exact (proj2 (default_model_is_first_entry all_up openai_and_groq "groq" "doc" "prompt"
                  JUndefined (boot openai_and_groq) H1)).
Defined.

Lemma strip_code_fences_leaves_no_fence_witness :
  (forall n, String.get n "{}" <> Some "`"%char)
  /\ strip_code_fences "{}" = "{}"
  /\ has_fence (strip_code_fences "{}") = false.
Proof.
  assert (H1 : forall n, String.get n "{}" <> Some "`"%char).
  { intros [ | [ | n]]; cbn; discriminate. }
  split; [exact H1 | split].
  - exact (proj2 (strip_code_fences_leaves_no_fence "{}") H1).
  - exact (proj1 (strip_code_fences_leaves_no_fence "{}")).
Defined.

Lemma content_beyond_3000_is_ignored_witness :
  js_substring 0 3000 (replicate 3001 "a") = js_substring 0 3000 (replicate 3002 "a")
  /\ analyzeWithAI all_up 1 (replicate 3001 "a") "prompt" (JStr "ollama") JUndefined
       (boot no_keys)
     = analyzeWithAI all_up 1 (replicate 3002 "a") "prompt" (JStr "ollama") JUndefined
         (boot no_keys).
Proof.
  assert (H1 : js_substring 0 3000 (replicate 3001 "a")
               = js_substring 0 3000 (replicate 3002 "a")) by (vm_compute; reflexivity).
  split; [exact H1 | ].
  exact (proj1 (content_beyond_3000_is_ignored all_up 1 _ _ "prompt" (JStr "ollama")
                  JUndefined (boot no_keys)) H1).
Defined.

Lemma extractKeywords_best_effort_witness :
  getAvailableProviders (boot openai_only) <> []
  /\ analyzeWithAI (answers "[sdi]") 1 "doc" (keywordPrompt "doc") JUndefined JUndefined
       (boot openai_only)
     = Some (Returned (mkResult (JStr "[sdi]") "openai" (JStr "gpt-3.5-turbo") UsageAbsent),
             snd (dispatch (answers "[sdi]") "openai" "doc" (keywordPrompt "doc") JNull
                    (boot openai_only)))
  /\ toy_parse (js_to_string (JStr "[sdi]")) = Some (JsonArray [JsonString "sdi"])
  /\ extractKeywords (answers "[sdi]") toy_parse 1 "doc" (boot openai_only)
     = Some (Returned [JsonString "sdi"],
             snd (dispatch (answers "[sdi]") "openai" "doc" (keywordPrompt "doc") JNull
                    (boot openai_only))).
Proof.
  assert (H1 : getAvailableProviders (boot openai_only) <> []) by discriminate.
  assert (H2 : analyzeWithAI (answers "[sdi]") 1 "doc" (keywordPrompt "doc") JUndefined
                 JUndefined (boot openai_only)
               = Some (Returned (mkResult (JStr "[sdi]") "openai"
                                          (JStr "gpt-3.5-turbo") UsageAbsent),
                       snd (dispatch (answers "[sdi]") "openai" "doc"
                              (keywordPrompt "doc") JNull (boot openai_only))))
    by (vm_compute; reflexivity).
  assert (H3 : toy_parse (js_to_string (JStr "[sdi]")) = Some (JsonArray [JsonString "sdi"]))
    by reflexivity.
  split; [exact H1 | split; [exact H2 | split; [exact H3 | ]]].
  exact (proj1 (proj2 (proj2 (proj2 (extractKeywords_best_effort (answers "[sdi]")
                                       toy_parse 1 "doc" (boot openai_only)))))
           _ _ _ H1 H2 H3).
Defined.

Lemma analyzeRFP_outcomes_witness :
  analyzeRFP_invoke (answers "sorry") 1 (String.append "Analyze: ") "doc" JUndefined
    JUndefined (boot openai_only)
  = Some (Returned (mkResult (JStr "sorry") "openai" (JStr "gpt-3.5-turbo") UsageAbsent),
          snd (dispatch (answers "sorry") "openai" "doc" "Analyze: doc" JNull
                 (boot openai_only)))
  /\ (forall text, JStr "sorry" = JStr text -> toy_parse (strip_code_fences text) = None)
  /\ analyzeRFP (answers "sorry") toy_parse 1 (String.append "Analyze: ")
       "2026-01-01T00:00:00.000Z" 7 "doc" JUndefined JUndefined (boot openai_only)
     = Some (AnalysisReturned (Unstructured (JStr "sorry"))
               (mkAnalysisMetadata "2026-01-01T00:00:00.000Z" "openai"
                  (JStr "gpt-3.5-turbo") 3 UsageAbsent 7),
             snd (dispatch (answers "sorry") "openai" "doc" "Analyze: doc" JNull
                    (boot openai_only))).
Proof.
  assert (H1 : analyzeRFP_invoke (answers "sorry") 1 (String.append "Analyze: ") "doc"
                 JUndefined JUndefined (boot openai_only)
               = Some (Returned (mkResult (JStr "sorry") "openai" (JStr "gpt-3.5-turbo")
                                          UsageAbsent),
                       snd (dispatch (answers "sorry") "openai" "doc" "Analyze: doc" JNull
                              (boot openai_only))))
    by (vm_compute; reflexivity).
  assert (H2 : forall text, JStr "sorry" = JStr text ->
                            toy_parse (strip_code_fences text) = None).
  { intros text E. inversion E. reflexivity. }
  split; [exact H1 | split; [exact H2 | ]].
  exact (proj1 (proj2 (proj2 (analyzeRFP_outcomes (answers "sorry") toy_parse 1
                                (String.append "Analyze: ") "2026-01-01T00:00:00.000Z" 7
                                "doc" JUndefined JUndefined (boot openai_only))
                         _ _ H1)) H2).
Defined.

Lemma accepted_upload_has_parser_witness :
  fileFilter last_four as_is report_pdf = Returned true
  /\ exists parser,
       parser_for (as_is (last_four (originalname report_pdf))) = Some parser
       /\ parse_upload last_four as_is toy_parsers report_pdf
          = match toy_parsers parser (file_path report_pdf) with
            | Returned text => text
            | Thrown e => parse_failure_text report_pdf (message_of e)
            end.
Proof.
  assert (H1 : fileFilter last_four as_is report_pdf = Returned true) by reflexivity.
  split; [exact H1 | ].
  exact (proj1 (accepted_upload_has_parser last_four as_is toy_parsers report_pdf) H1).
Defined.

Lemma processFile_stores_parse_failures_witness :
  parser_for (as_is (last_four (originalname report_pdf))) = Some PdfParser
  /\ toy_parsers PdfParser (file_path report_pdf) = Thrown (Rejection "bad XRef entry")
  /\ parse_upload last_four as_is toy_parsers report_pdf
     = parse_failure_text report_pdf (message_of (Rejection "bad XRef entry")).
Proof.
  assert (H1 : parser_for (as_is (last_four (originalname report_pdf))) = Some PdfParser)
    by reflexivity.
  assert (H2 : toy_parsers PdfParser (file_path report_pdf)
               = Thrown (Rejection "bad XRef entry")) by reflexivity.
  split; [exact H1 | split; [exact H2 | ]].
  exact (proj1 (proj2 (proj2 (proj2 (processFile_stores_parse_failures last_four as_is
                                       toy_parsers save_ok remove_ok report_pdf "id-1"
                                       "2026-01-01T00:00:00.000Z"))))
           _ _ H1 H2).
Defined.

Lemma ai_assistant_replies_witness :
  truthy (JStr "doc-9") = true
  /\ truthy (JStr "why?") = true
  /\ one_document (js_to_string (JStr "doc-9")) = Returned None
  /\ ai_assistant all_up one_document 1 "2026-01-01T00:00:00.000Z" (JStr "doc-9")
       (JStr "why?") JUndefined JUndefined (boot openai_only)
     = Some (ReplyError 404 "Document not found", boot openai_only).
Proof.
  assert (H1 : truthy (JStr "doc-9") = true) by reflexivity.
  assert (H2 : truthy (JStr "why?") = true) by reflexivity.
  assert (H3 : one_document (js_to_string (JStr "doc-9")) = Returned None) by reflexivity.
  split; [exact H1 | split; [exact H2 | split; [exact H3 | ]]].
  exact (proj1 (proj2 (ai_assistant_replies all_up one_document 1
                         "2026-01-01T00:00:00.000Z" (JStr "doc-9") (JStr "why?")
                         JUndefined JUndefined (boot openai_only))) H1 H2 H3).
Defined.

Lemma createMockAnalysis_bounds_witness :
  String.length "RFP for a studio" <= 500
  /\ mock_documentPreview
       (createMockAnalysis as_is as_is no_duration one_word "2026-01-01T00:00:00.000Z"
          "RFP for a studio")
     = "RFP for a studio".
Proof.
  assert (H1 : String.length "RFP for a studio" <= 500) by (cbn; lia).
  split; [exact H1 | ].
  exact (proj1 (proj2 (proj2 (proj2 (proj2 (proj2
           (createMockAnalysis_bounds as_is as_is no_duration one_word
              "2026-01-01T00:00:00.000Z" "RFP for a studio")))))) H1).
Defined.

(** ** The storage statements at concrete inputs *)

Lemma processed_content_round_trip_witness :
  NoDup (map fst [("id", JsonString "mine"); ("contentLength", JsonNumber "12")])
  /\ exists record,
       FileManager.getProcessedContent toy_join "processed" "doc-1"
         (snd (FileManager.saveProcessedContent toy_join "processed" "doc-1"
                 [("id", JsonString "mine"); ("contentLength", JsonNumber "12")]
                 "2026-01-01T00:00:00.000Z" empty_disk))
       = FileManager.Loaded (JsonObject record)
       /\ FileManager.object_get "id" record = Some (JsonString "mine").
Proof.
  assert (H : NoDup (map fst [("id", JsonString "mine");
                              ("contentLength", JsonNumber "12")])).
  { cbn. repeat constructor; cbn; intuition discriminate. }
  split; [exact H | ].
  destruct (processed_content_round_trip toy_join "processed" "doc-1"
              [("id", JsonString "mine"); ("contentLength", JsonNumber "12")]
              "2026-01-01T00:00:00.000Z" empty_disk H)
    as (_ & (record & Hload & _ & Hget) & _).
  exists record. split; [exact Hload | ].
  exact (Hget "id" ltac:(discriminate)).
Defined.

Lemma analysis_round_trip_witness :
  FileManager.getAnalysis toy_join "analysis" "doc-1"
    (snd (FileManager.saveAnalysis toy_join "analysis" "doc-1" JsonNull
            "2026-01-01T00:00:00.000Z" empty_disk))
  = FileManager.Loaded (Some JsonNull)
  /\ FileManager.getAnalysis toy_join "analysis" "doc-2"
       (snd (FileManager.saveAnalysis toy_join "analysis" "doc-1" JsonNull
               "2026-01-01T00:00:00.000Z" empty_disk))
     = FileManager.getAnalysis toy_join "analysis" "doc-2" empty_disk.
Proof.
  destruct (analysis_round_trip toy_join "analysis" "doc-1" JsonNull
              "2026-01-01T00:00:00.000Z" empty_disk) as (Hsame & Hother).
  split; [exact Hsame | ].
  exact (Hother "doc-2" ltac:(discriminate)).
Defined.

Lemma missing_and_unreadable_files_witness :
  FileManager.getProcessedContent toy_join "processed" "doc-1" damaged_disk
  = FileManager.Failed (FileManager.ReadFailure "Unexpected end of JSON input")
  /\ FileManager.getAnalysis toy_join "analysis" "doc-1" damaged_disk
     = FileManager.Loaded (Some JsonNull)
  /\ FileManager.getFromCache toy_join "cache" toy_date "doc-1" 0 damaged_disk
     = (Some JsonNull, damaged_disk).
Proof.
  destruct (missing_and_unreadable_files toy_join "processed" "analysis" "cache"
              toy_date "doc-1" 0 damaged_disk) as (_ & Hanalysis & Hdamaged & _ & Hcache).
  split; [exact (Hdamaged _ eq_refl) | split; [exact (Hanalysis eq_refl) | ]].
  exact (Hcache (or_intror (or_intror eq_refl))).
Defined.

Lemma cache_entry_expires_witness :
  toy_iso (1000 + 24 * 60 * 60 * 1000)%Z = Some "1970-01-02T00:00:01.000Z"
  /\ toy_date (Some (JsonString "1970-01-02T00:00:01.000Z"))
     = Some (1000 + 24 * 60 * 60 * 1000)%Z
  /\ FileManager.getFromCache toy_join "cache" toy_date "k" 86401000
       (snd (FileManager.saveToCache toy_join "cache" toy_iso "k" (JsonString "v") 24
               "1970-01-01T00:00:01.000Z" 1000 empty_disk))
     = (Some (JsonString "v"),
        snd (FileManager.saveToCache toy_join "cache" toy_iso "k" (JsonString "v") 24
               "1970-01-01T00:00:01.000Z" 1000 empty_disk)).
Proof.
  assert (H1 : toy_iso (1000 + 24 * 60 * 60 * 1000)%Z = Some "1970-01-02T00:00:01.000Z")
    by reflexivity.
  assert (H2 : toy_date (Some (JsonString "1970-01-02T00:00:01.000Z"))
               = Some (1000 + 24 * 60 * 60 * 1000)%Z) by reflexivity.
  split; [exact H1 | split; [exact H2 | ]].
  exact (proj1 (proj2 (cache_entry_expires toy_join "cache" toy_date toy_iso "k"
                         (JsonString "v") 24 "1970-01-01T00:00:01.000Z"
                         "1970-01-02T00:00:01.000Z" 1000 empty_disk H1 H2))
           86401000%Z ltac:(vm_compute; discriminate)).
Defined.
